(** * pygerrit2: the REST client and the review model

    A shallow embedding of [pygerrit2/rest/__init__.py] and
    [pygerrit2/rest/model/__init__.py].

    Python values are the inductive type [pyval]; a dictionary is an
    association list in insertion order with string keys (keyword-argument
    names, JSON member names, header names, file paths).  A call that can
    raise returns a [result].  Byte strings and text strings share the
    type [string]; the codec of [bytes.decode], [json.loads], [json.dumps],
    [urlencode] and the HTTP transport belong to libraries outside the
    repository and are the fields of the record [pylib]. *)

From Stdlib Require Import List String Ascii Bool ZArith Lia DecimalString
  DecimalPos DecimalZ.
Import ListNotations.
Open Scope string_scope.
Open Scope Z_scope.
Set Warnings "-register-all".

(** ** Python values *)

Inductive pyval : Type :=
| VNone : pyval
| VBool (b : bool) : pyval
| VInt (z : Z) : pyval
| VStr (s : string) : pyval
| VList (l : list pyval) : pyval
| VDict (d : list (string * pyval)) : pyval
| VAuth (handler : string) : pyval   (* an instance of a requests.auth.AuthBase subclass *)
| VObj (cls : string) : pyval.       (* any other object, always true in a condition *)

Definition dict := list (string * pyval).

(** Python's truth value of an object. *)
Definition truthy (v : pyval) : bool :=
  match v with
  | VNone => false
  | VBool b => b
  | VInt z => negb (z =? 0)
  | VStr s => negb (s =? "")%string
  | VList l => match l with [] => false | _ => true end
  | VDict d => match d with [] => false | _ => true end
  | VAuth _ => true
  | VObj _ => true
  end.

Definition is_dict (v : pyval) : bool :=
  match v with VDict _ => true | _ => false end.

Definition is_list (v : pyval) : bool :=
  match v with VList _ => true | _ => false end.

(** [isinstance(v, requests.auth.AuthBase)] *)
Definition is_AuthBase (v : pyval) : bool :=
  match v with VAuth _ => true | _ => false end.

(** ** Exceptions *)

Inductive exn : Type :=
| HTTPError (status : Z)
| ValueError (msg : string)
| UnicodeDecodeError
| LookupError (msg : string)
| NameError (name : string)
| KeyError (key : string)
| AttributeError (msg : string)
| TypeError (msg : string)
| RequestException (msg : string).



Inductive result (A : Type) : Type :=
| Ok (a : A)
| Raise (e : exn).
Arguments Ok {A} a.
Arguments Raise {A} e.

Definition bind {A B : Type} (m : result A) (f : A -> result B) : result B :=
  match m with
  | Ok a => f a
  | Raise e => Raise e
  end.

Declare Scope py_scope.
Delimit Scope py_scope with py.
Notation "x <- m ;; k" := (bind m (fun x => k))
  (at level 100, m at next level, right associativity) : py_scope.
Notation "m ;;; k" := (bind m (fun _ => k))
  (at level 100, right associativity) : py_scope.
Open Scope py_scope.

(** ** Dictionaries *)

(** [key in d] and [d.get(key)] *)
Fixpoint lookup (key : string) (d : dict) : option pyval :=
  match d with
  | [] => None
  | (k, v) :: rest => if (k =? key)%string then Some v else lookup key rest
  end.

Definition contains (key : string) (d : dict) : bool :=
  match lookup key d with Some _ => true | None => false end.

(** [d[key]] *)
Definition getitem (key : string) (d : dict) : result pyval :=
  match lookup key d with
  | Some v => Ok v
  | None => Raise (KeyError key)
  end.

(** [d[key] = v]: an existing key keeps its position, a new one goes last. *)
Fixpoint setitem (key : string) (v : pyval) (d : dict) : dict :=
  match d with
  | [] => [(key, v)]
  | (k, w) :: rest =>
      if (k =? key)%string then (k, v) :: rest else (k, w) :: setitem key v rest
  end.

(** [del d[key]], the effect of [d.pop(key)] on [d] *)
Definition delitem (key : string) (d : dict) : dict :=
  filter (fun p => negb (fst p =? key)%string) d.

Definition keys (d : dict) : list string := map fst d.

(** [d.update(other)] *)
Definition update (d other : dict) : dict :=
  fold_left (fun acc p => setitem (fst p) (snd p) acc) other d.

(** ** Strings *)

(** The characters removed by [bytes.strip()]: space, tab, newline, vertical
    tab, form feed and carriage return. *)
Definition is_space (c : ascii) : bool :=
  let n := nat_of_ascii c in
  (Nat.eqb n 32 || (Nat.leb 9 n && Nat.leb n 13))%bool.

Section Strip.
Variable drop : ascii -> bool.

Fixpoint lstrip_by (s : string) : string :=
  match s with
  | EmptyString => EmptyString
  | String c s' => if drop c then lstrip_by s' else s
  end.

Fixpoint rstrip_by (s : string) : string :=
  match s with
  | EmptyString => EmptyString
  | String c s' =>
      match rstrip_by s' with
      | EmptyString => if drop c then EmptyString else String c EmptyString
      | t => String c t
      end
  end.
End Strip.

Definition lstrip : string -> string := lstrip_by is_space.
Definition rstrip : string -> string := rstrip_by is_space.
(** [s.strip()] *)
Definition strip (s : string) : string := lstrip (rstrip s).

Definition is_slash (c : ascii) : bool := Ascii.eqb c "/"%char.

(** [s.startswith(p)] *)
Fixpoint startswith (s p : string) {struct p} : bool :=
  match p, s with
  | EmptyString, _ => true
  | String _ _, EmptyString => false
  | String a p', String b s' => (Ascii.eqb a b && startswith s' p')%bool
  end.

(** [s.endswith(suffix)] *)
Fixpoint endswith (s suffix : string) : bool :=
  ((s =? suffix)%string ||
   match s with
   | EmptyString => false
   | String _ s' => endswith s' suffix
   end)%bool.

(** [s[n:]] *)
Fixpoint slice_from (n : nat) (s : string) : string :=
  match n, s with
  | O, _ => s
  | S n', String _ s' => slice_from n' s'
  | S _, EmptyString => EmptyString
  end.

(** [s[:-n]] for [n > 0] *)
Definition slice_to_neg (n : nat) (s : string) : string :=
  substring 0 (String.length s - n) s.

(** [s.split(sep)[0]] for a one-character separator *)
Fixpoint split_first (sep : ascii) (s : string) : string :=
  match s with
  | EmptyString => EmptyString
  | String c s' => if Ascii.eqb c sep then EmptyString else String c (split_first sep s')
  end.

(** [s.replace(old, new)] for one-character [old] and [new] *)
Fixpoint replace (old new : ascii) (s : string) : string :=
  match s with
  | EmptyString => EmptyString
  | String c s' => String (if Ascii.eqb c old then new else c) (replace old new s')
  end.

(** [sep.join(parts)] *)
Fixpoint join (sep : string) (parts : list string) : string :=
  match parts with
  | [] => ""
  | [p] => p
  | p :: rest => p ++ sep ++ join sep rest
  end.

(** ASCII lower case, for the case-insensitive header names of
    [requests]. *)
Definition lower_char (c : ascii) : ascii :=
  let n := nat_of_ascii c in
  if (Nat.leb 65 n && Nat.leb n 90)%bool then ascii_of_nat (n + 32) else c.

Fixpoint lower (s : string) : string :=
  match s with
  | EmptyString => EmptyString
  | String c s' => String (lower_char c) (lower s')
  end.

(** ** The HTTP exchange *)

(** What the code reads of a [requests.Response]. *)
Record response : Type := {
  status_code : Z;
  headers : list (string * string);
  content : string;
  encoding : option string
}.

Inductive method : Type := GET | PUT | POST | DELETE.

(** A call [self.session.<verb>(url, **options)]. *)
Record request : Type := {
  verb : method;
  target : string;
  options : dict
}.

(** The functions of [json], [codecs], [urllib] and [requests] that the
    code calls. *)
Record pylib : Type := {
  json_loads : string -> result pyval;
  json_dumps : pyval -> result string;        (* with [sort_keys=True] *)
  bytes_decode : string -> string -> result string;  (* encoding, bytes *)
  urlencode : dict -> string;                 (* with [doseq=True] *)
  session_request : request -> result response
}.

(** A computation that dispatches HTTP requests: the requests sent, in
    order, and the outcome. *)
Definition io (A : Type) : Type := (list request * result A)%type.

Definition io_ret {A : Type} (a : A) : io A := ([], Ok a).

Definition io_lift {A : Type} (m : result A) : io A := ([], m).

Definition io_bind {A B : Type} (m : io A) (f : A -> io B) : io B :=
  match m with
  | (sent, Ok a) => let (sent', r) := f a in ((sent ++ sent')%list, r)
  | (sent, Raise e) => (sent, Raise e)
  end.

Notation "x <~ m ;; k" := (io_bind m (fun x => k))
  (at level 100, m at next level, right associativity) : py_scope.

(** [GerritRestAPI] and its subclass [GerritClient]: the normalized base
    URL and the default request options ([self.kwargs]). *)
Record client : Type := {
  self_url : string;       (* self.url *)
  self_kwargs : dict       (* self.kwargs *)
}.

(** ** pygerrit2.rest.model *)

(** The names bound at the top level of [pygerrit2/rest/model/__init__.py]:
    its two imports and its three classes. *)
Definition model_globals : list string :=
  ["fnmatch"; "urllib"; "GerritReview"; "GerritProject"; "GerritChange"].

(** Looking up a global name of the model module. *)
Definition model_global (name : string) : result unit :=
  if existsb (String.eqb name) model_globals then Ok tt
  else Raise (NameError name).

(** The items a [for] loop takes from an object. *)
Definition iter_items (v : pyval) : result (list pyval) :=
  match v with
  | VList l => Ok l
  | VDict d => Ok (map VStr (keys d))
  | VStr s => Ok (map (fun c => VStr (String c "")) (list_ascii_of_string s))
  | _ => Raise (TypeError "object is not iterable")
  end.

Module GerritReview.

Record t : Type := {
  message : pyval;
  labels : pyval;
  comments : pyval
}.

(** A method call: the object afterwards, and whether the call returned
    or raised. *)
Definition call : Type := (t * result unit)%type.

(** [list(comment.keys())] *)
Definition comment_keys (comment : pyval) : result (list string) :=
  match comment with
  | VDict c => Ok (keys c)
  | _ => Raise (AttributeError "keys")
  end.

Definition comment_item (key : string) (comment : pyval) : result pyval :=
  match comment with
  | VDict c => getitem key c
  | _ => Raise (TypeError "object is not subscriptable")
  end.

Definition mem (key : string) (l : list string) : bool :=
  existsb (String.eqb key) l.

(** The message built for one comment; [None] is the [continue] branch. *)
Definition comment_msg (comment : pyval) (ks : list string)
  : result (option pyval) :=
  if mem "range" ks then
    r <- comment_item "range" comment ;;
    m <- comment_item "message" comment ;;
    Ok (Some (VDict [("range", r); ("message", m)]))
  else if mem "line" ks then
    l <- comment_item "line" comment ;;
    m <- comment_item "message" comment ;;
    Ok (Some (VDict [("line", l); ("message", m)]))
  else Ok None.

(** A file path used as a key of [self.comments]. *)
Definition path_key (v : pyval) : result string :=
  match v with
  | VStr s => Ok s
  | _ => Raise (TypeError "file path is not a string")
  end.

(** [self.comments[filename].append(msg)] or
    [self.comments.update({filename: [msg]})] *)
Definition store_comment (filename : string) (msg : pyval) (cs : pyval)
  : result pyval :=
  match cs with
  | VDict d =>
      if truthy cs then
        if mem filename (keys d) then
          match lookup filename d with
          | Some (VList l) => Ok (VDict (setitem filename (VList (l ++ [msg])%list) d))
          | _ => Raise (AttributeError "append")
          end
        else Ok (VDict (update d [(filename, VList [msg])]))
      else Ok (VDict (update d [(filename, VList [msg])]))
  | _ => Raise (AttributeError (if truthy cs then "keys" else "update"))
  end.

(** The body of the loop of [add_comments]. *)
Definition add_comment (comment : pyval) (self : t) : call :=
  match comment_keys comment with
  | Raise e => (self, Raise e)
  | Ok ks =>
      (* ['filename' and 'message' in keys] is ['message' in keys] *)
      if (truthy (VStr "filename") && mem "message" ks)%bool then
        match comment_msg comment ks with
        | Raise e => (self, Raise e)
        | Ok None => (self, Ok tt)
        | Ok (Some msg) =>
            match (f <- comment_item "filename" comment ;; path_key f) with
            | Raise e => (self, Raise e)
            | Ok filename =>
                match store_comment filename msg (comments self) with
                | Raise e => (self, Raise e)
                | Ok cs =>
                    ({| message := message self; labels := labels self;
                        comments := cs |}, Ok tt)
                end
            end
        end
      else (self, Ok tt)
  end.

Fixpoint add_comments_loop (items : list pyval) (self : t) : call :=
  match items with
  | [] => (self, Ok tt)
  | comment :: rest =>
      match add_comment comment self with
      | (self', Ok _) => add_comments_loop rest self'
      | (self', Raise e) => (self', Raise e)
      end
  end.

Definition add_comments (comments : pyval) (self : t) : call :=
  match iter_items comments with
  | Ok items => add_comments_loop items self
  | Raise e => (self, Raise e)
  end.

Definition __init__ (message labels comments : pyval) : result t :=
  let message := if truthy message then message else VStr "" in
  labels <- (if truthy labels then
               if negb (is_dict labels)
               then Raise (ValueError "labels must be a dict.")
               else Ok labels
             else Ok (VDict [])) ;;
  if truthy comments then
    if negb (is_list comments)
    then Raise (ValueError "comments must be a list.")
    else
      match add_comments comments
              {| message := message; labels := labels; comments := VDict [] |}
      with
      | (self, Ok _) => Ok self
      | (_, Raise e) => Raise e
      end
  else Ok {| message := message; labels := labels; comments := VDict [] |}.

Definition set_message (message : pyval) (self : t) : call :=
  ({| message := message; labels := labels self; comments := comments self |},
   Ok tt).

(** [d.update(other)] for an arbitrary argument: a mapping, or a sequence
    of two-element sequences whose first elements are the keys. *)
Fixpoint update_pairs (d : dict) (items : list pyval) : dict * result unit :=
  match items with
  | [] => (d, Ok tt)
  | VList [VStr k; v] :: rest => update_pairs (setitem k v d) rest
  | VList [_; _] :: _ => (d, Raise (TypeError "key is not a string"))
  | VList _ :: _ => (d, Raise (ValueError "dictionary update sequence element"))
  | _ :: _ => (d, Raise (TypeError "cannot convert dictionary update sequence element"))
  end.

Definition update_from (d : dict) (other : pyval) : dict * result unit :=
  match other with
  | VDict o => (update d o, Ok tt)
  | VList items => update_pairs d items
  | VStr "" => (d, Ok tt)
  | VStr _ => (d, Raise (ValueError "dictionary update sequence element"))
  | _ => (d, Raise (TypeError "object is not iterable"))
  end.

Definition add_labels (new_labels : pyval) (self : t) : call :=
  match labels self with
  | VDict d =>
      let (d', r) := update_from d new_labels in
      ({| message := message self; labels := VDict d';
          comments := comments self |}, r)
  | _ => (self, Raise (AttributeError "update"))
  end.

Definition __str__ (lib : pylib) (self : t) : result string :=
  let review_input : dict := [] in
  let review_input :=
    if truthy (message self)
    then update review_input [("message", message self)] else review_input in
  let review_input :=
    if truthy (labels self)
    then update review_input [("labels", labels self)] else review_input in
  let review_input :=
    if truthy (comments self)
    then update review_input [("comments", comments self)] else review_input in
  model_global "json" ;;;
  json_dumps lib (VDict review_input).

End GerritReview.

Module GerritChange.

Record t : Type := {
  gerrit : client;
  attrs : dict          (* the attributes set from the JSON object *)
}.

(** [GerritChange(gerrit, **data)] *)
Definition __init__ (gerrit : client) (data : pyval) : result t :=
  match data with
  | VDict d =>
      if contains "gerrit" d
      then Raise (TypeError "got multiple values for argument 'gerrit'")
      else Ok {| gerrit := gerrit; attrs := d |}
  | _ => Raise (TypeError "argument after ** must be a mapping")
  end.

End GerritChange.

Module GerritProject.

Record t : Type := {
  gerrit : client;
  data : dict
}.

(** [GerritProject(gerrit, **data)] *)
Definition __init__ (gerrit : client) (data : pyval) : result t :=
  match data with
  | VDict d =>
      if contains "gerrit" d
      then Raise (TypeError "got multiple values for argument 'gerrit'")
      else Ok {| gerrit := gerrit; data := d |}
  | _ => Raise (TypeError "argument after ** must be a mapping")
  end.

Definition name (self : t) : result pyval := getitem "name" (data self).

End GerritProject.

(** ** pygerrit2.rest *)

Definition GERRIT_MAGIC_JSON_PREFIX : string :=
  ")]}'" ++ String (ascii_of_nat 10) "".
Definition GERRIT_AUTH_SUFFIX : string := "/a".

(** [response.headers.get(name, default)]; the header names of a
    [requests] response compare without regard to case. *)
Fixpoint header_get (name : string) (hs : list (string * string))
  (default : string) : string :=
  match hs with
  | [] => default
  | (k, v) :: rest =>
      if (lower k =? lower name)%string then v else header_get name rest default
  end.

(** [response.raise_for_status()] *)
Definition raise_for_status (r : response) : result unit :=
  if ((400 <=? status_code r) && (status_code r <? 600))%bool
  then Raise (HTTPError (status_code r))
  else Ok tt.

(** The truth value of [response.encoding]. *)
Definition declared_encoding (r : response) : option string :=
  match encoding r with
  | Some e => if (e =? "")%string then None else Some e
  | None => None
  end.

Definition _decode_response (lib : pylib) (r : response) : result pyval :=
  let content := strip (content r) in
  content <- match declared_encoding r with
             | Some e => bytes_decode lib e content
             | None => Ok content
             end ;;
  raise_for_status r ;;;
  let content_type := header_get "content-type" (headers r) "" in
  if negb (split_first ";" content_type =? "application/json")%string
  then Ok (VStr content)
  else
    let content :=
      if startswith content GERRIT_MAGIC_JSON_PREFIX
      then slice_from (String.length GERRIT_MAGIC_JSON_PREFIX) content
      else content in
    (* a ValueError of json.loads is logged and raised again *)
    json_loads lib content.

(** [_merge_dict(result, overrides)] for [overrides] a dictionary; the
    recursion descends into the values of [overrides]. *)
Fixpoint merge_into (result : dict) (overrides : pyval) {struct overrides}
  : dict :=
  match overrides with
  | VDict o =>
      (fix each_key (result : dict) (items : list (string * pyval))
         {struct items} : dict :=
         match items with
         | [] => result
         | (key, v) :: rest =>
             each_key
               match lookup key result, v with
               | Some (VDict r), VDict _ =>
                   setitem key (VDict (merge_into r v)) result
               | _, _ => setitem key v result
               end
               rest
         end) result o
  | _ => result
  end.

Definition _merge_dict (result overrides : dict) : dict :=
  merge_into result (VDict overrides).

(** What a verb returns: the decoded body, with the response when
    [return_response] is true. *)
Inductive returned : Type :=
| Decoded (body : pyval)
| DecodedWithResponse (body : pyval) (r : response).

Definition decoded_body (x : returned) : pyval :=
  match x with
  | Decoded b => b
  | DecodedWithResponse b _ => b
  end.

(** [self.session.<verb>(url, **options)] *)
Definition session_call (lib : pylib) (m : method) (u : string) (opts : dict)
  : io response :=
  let rq := {| verb := m; target := u; options := opts |} in
  ([rq], session_request lib rq).

Module GerritRestAPI.

Definition __init__ (url : string) (auth verify : pyval) : result client :=
  let headers := [("Accept", VStr "application/json");
                  ("Accept-Encoding", VStr "gzip")] in
  let kwargs := [("auth", auth); ("verify", verify);
                 ("headers", VDict headers)] in
  let url := rstrip_by is_slash url in
  url <- (if truthy auth then
            if negb (is_AuthBase auth) then
              Raise (ValueError
                "Invalid auth type; must be derived from requests.auth.AuthBase")
            else if negb (endswith url GERRIT_AUTH_SUFFIX)
                 then Ok (url ++ GERRIT_AUTH_SUFFIX)
                 else Ok url
          else if endswith url GERRIT_AUTH_SUFFIX
               then Ok (slice_to_neg (String.length GERRIT_AUTH_SUFFIX) url)
               else Ok url) ;;
  let url := if negb (endswith url "/") then url ++ "/" else url in
  Ok {| self_url := url; self_kwargs := kwargs |}.

Definition make_url (self : client) (endpoint : string) : string :=
  let endpoint := lstrip_by is_slash endpoint in
  self_url self ++ endpoint.

Definition finish (return_response : bool) (decoded : pyval) (r : response)
  : returned :=
  if return_response then DecodedWithResponse decoded r else Decoded decoded.

Definition get (lib : pylib) (self : client) (endpoint : string)
  (return_response : bool) (kwargs : dict) : io returned :=
  let kwargs := update kwargs (self_kwargs self) in
  response <~ session_call lib GET (make_url self endpoint) kwargs ;;
  decoded_response <~ io_lift (_decode_response lib response) ;;
  io_ret (finish return_response decoded_response response).

Definition content_type_header : dict :=
  [("headers", VDict [("Content-Type", VStr "application/json;charset=UTF-8")])].

Definition put (lib : pylib) (self : client) (endpoint : string)
  (return_response : bool) (kwargs : dict) : io returned :=
  let args : dict := [] in
  let args :=
    if ((match lookup "data" kwargs with Some v => is_dict v | None => false end)
        || contains "json" kwargs)%bool
    then _merge_dict args content_type_header
    else args in
  let args := _merge_dict args (self_kwargs self) in
  let args := _merge_dict args kwargs in
  response <~ session_call lib PUT (make_url self endpoint) args ;;
  decoded_response <~ io_lift (_decode_response lib response) ;;
  io_ret (finish return_response decoded_response response).

Definition post (lib : pylib) (self : client) (endpoint : string)
  (return_response : bool) (kwargs : dict) : io returned :=
  let args : dict := [] in
  let args :=
    if ((match lookup "data" kwargs with Some v => is_dict v | None => false end)
        || contains "json" kwargs)%bool
    then _merge_dict args content_type_header
    else args in
  let args := _merge_dict args (self_kwargs self) in
  let args := _merge_dict args kwargs in
  response <~ session_call lib POST (make_url self endpoint) args ;;
  decoded_response <~ io_lift (_decode_response lib response) ;;
  io_ret (finish return_response decoded_response response).

Definition delete (lib : pylib) (self : client) (endpoint : string)
  (return_response : bool) (kwargs : dict) : io returned :=
  let args : dict := [] in
  let args :=
    if (contains "data" kwargs || contains "json" kwargs)%bool
    then _merge_dict args content_type_header
    else args in
  let args := _merge_dict args (self_kwargs self) in
  let args := _merge_dict args kwargs in
  response <~ session_call lib DELETE (make_url self endpoint) args ;;
  decoded_response <~ io_lift (_decode_response lib response) ;;
  io_ret (finish return_response decoded_response response).

Definition review (lib : pylib) (self : client) (change_id revision : string)
  (review : GerritReview.t) : io unit :=
  let endpoint :=
    "changes/" ++ change_id ++ "/revisions/" ++ revision ++ "/review" in
  data <~ io_lift (GerritReview.__str__ lib review) ;;
  _ <~ post lib self endpoint false [("data", VStr data)] ;;
  io_ret tt.

End GerritRestAPI.

Module GerritClient.

(** [auth_class(username, password)], by default an [HTTPBasicAuth]. *)
Definition __init__ (url username password : string) : result client :=
  GerritRestAPI.__init__ url (VAuth (username ++ ":" ++ password))
    (VBool true).

Definition default_options : pyval :=
  VList [VStr "CURRENT_REVISION"; VStr "CURRENT_COMMIT"; VStr "CURRENT_FILES"].

Definition _encode_query (lib : pylib) (query : dict) : string :=
  if truthy (VDict query) then urlencode lib query else "".

(** The generator ['{}:{}'.format(k, v.replace(' ', '+')) for k, v in
    kwargs.items() if v]. *)
Fixpoint query_terms (items : dict) : result (list string) :=
  match items with
  | [] => Ok []
  | (k, v) :: rest =>
      if truthy v then
        match v with
        | VStr s =>
            terms <- query_terms rest ;;
            Ok ((k ++ ":" ++ replace " " "+" s) :: terms)
        | _ => Raise (AttributeError "replace")
        end
      else query_terms rest
  end.

Fixpoint wrap_changes (self : client) (items : list pyval)
  : result (list GerritChange.t) :=
  match items with
  | [] => Ok []
  | c :: rest =>
      change <- GerritChange.__init__ self c ;;
      changes <- wrap_changes self rest ;;
      Ok (change :: changes)
  end.

Definition query_changes (lib : pylib) (self : client) (kwargs : dict)
  : io (list GerritChange.t) :=
  let options :=
    match lookup "options" kwargs with
    | None => default_options
    | Some o => o
    end in
  let kwargs := delitem "options" kwargs in
  terms <~ io_lift (query_terms kwargs) ;;
  let query := join " " terms in
  found <~ GerritRestAPI.get lib self
             ("/changes/?" ++ _encode_query lib [("o", options); ("q", VStr query)])
             false [] ;;
  io_lift (items <- iter_items (decoded_body found) ;; wrap_changes self items).

Definition get_change (lib : pylib) (self : client) (kwargs : dict)
  : io (option GerritChange.t) :=
  changes <~ query_changes lib self kwargs ;;
  io_ret (hd_error changes).


(** The keywords a call cannot pass in [**optional_args]: they name the
    parameters of [create_change]. *)
Definition create_change_parameters : list string :=
  ["self"; "project"; "branch"; "subject"].

Definition create_change (lib : pylib) (self : client)
  (project branch subject : pyval) (optional_args : dict)
  : io GerritChange.t :=
  if existsb (fun p => contains p optional_args) create_change_parameters
  then io_lift (Raise (TypeError "got multiple values for argument"))
  else
    let args := [("project", project); ("branch", branch);
                 ("subject", subject)] in
    let args := update args optional_args in
    created <~ GerritRestAPI.post lib self "/changes/" false
                 [("json", VDict args)] ;;
    io_lift (GerritChange.__init__ self (decoded_body created)).

End GerritClient.

(** ** The methods of GerritChange *)

(** [str(v)], which the [%s] conversion applies: a string is itself, an
    integer its decimal digits; the text of containers and other objects
    is that of [repr]. *)
Definition py_str (repr : pyval -> string) (v : pyval) : string :=
  match v with
  | VStr s => s
  | VInt z => NilZero.string_of_int (Z.to_int z)
  | VBool true => "True"
  | VBool false => "False"
  | VNone => "None"
  | _ => repr v
  end.

(** An object used as an index: an integer, or a Boolean as 0 or 1. *)
Definition as_index (key : pyval) : option Z :=
  match key with
  | VInt i => Some i
  | VBool b => Some (if b then 1 else 0)
  | _ => None
  end.

(** [items[i]] of a sequence; an index out of range raises [IndexError],
    which is a [LookupError]. *)
Definition sequence_item {A : Type} (items : list A) (i : Z) : result A :=
  let n := Z.of_nat (List.length items) in
  let j := if i <? 0 then i + n else i in
  if (0 <=? j)
  then match nth_error items (Z.to_nat j) with
       | Some v => Ok v
       | None => Raise (LookupError "index out of range")
       end
  else Raise (LookupError "index out of range").

(** [container[key]] *)
Definition subscript (repr : pyval -> string) (container key : pyval)
  : result pyval :=
  match container with
  | VDict d =>
      match key with
      | VStr k => getitem k d
      | VList _ | VDict _ => Raise (TypeError "unhashable type")
      | _ => Raise (KeyError (py_str repr key))
      end
  | VList l =>
      match as_index key with
      | Some i => sequence_item l i
      | None => Raise (TypeError "list indices must be integers")
      end
  | VStr s =>
      match as_index key with
      | Some i =>
          c <- sequence_item (list_ascii_of_string s) i ;;
          Ok (VStr (String c ""))
      | None => Raise (TypeError "string indices must be integers")
      end
  | _ => Raise (TypeError "object is not subscriptable")
  end.

Module GerritChangeMethods.
Section Methods.
Variable lib : pylib.
Variable repr : pyval -> string.

(** [self.__dict__[name]] for an attribute set from the JSON object. *)
Definition attr (name : string) (self : GerritChange.t) : result pyval :=
  getitem name (GerritChange.attrs self).

Definition id (self : GerritChange.t) : result string :=
  n <- attr "_number" self ;;
  Ok (py_str repr n).

Definition change_id (self : GerritChange.t) : result pyval :=
  attr "change_id" self.

Definition revision (self : GerritChange.t) : result pyval :=
  attr "current_revision" self.

Definition files (self : GerritChange.t) : result pyval :=
  revisions <- attr "revisions" self ;;
  rev <- revision self ;;
  detail <- subscript repr revisions rev ;;
  subscript repr detail (VStr "files").

Definition status (self : GerritChange.t) : result pyval :=
  attr "status" self.

Definition rebase (self : GerritChange.t) : io returned :=
  id <~ io_lift (id self) ;;
  GerritRestAPI.post lib (GerritChange.gerrit self)
    ("/changes/" ++ id ++ "/rebase") false [].

Definition abandon (self : GerritChange.t) : io returned :=
  id <~ io_lift (id self) ;;
  GerritRestAPI.post lib (GerritChange.gerrit self)
    ("/changes/" ++ id ++ "/abandon") false [].

Definition get_topic (self : GerritChange.t) : io returned :=
  id <~ io_lift (id self) ;;
  GerritRestAPI.get lib (GerritChange.gerrit self)
    ("/changes/" ++ id ++ "/topic") false [].

Definition set_topic (topic : pyval) (self : GerritChange.t) : io returned :=
  id <~ io_lift (id self) ;;
  GerritRestAPI.put lib (GerritChange.gerrit self)
    ("/changes/" ++ id ++ "/topic") false
    [("json", VDict [("topic", topic)])].

Definition delete_topic (self : GerritChange.t) : io returned :=
  id <~ io_lift (id self) ;;
  GerritRestAPI.delete lib (GerritChange.gerrit self)
    ("/changes/" ++ id ++ "/topic") false [].

Definition submit (self : GerritChange.t) : io returned :=
  id <~ io_lift (id self) ;;
  GerritRestAPI.post lib (GerritChange.gerrit self)
    ("/changes/" ++ id ++ "/submit") false [].

Definition get_file_content (filename : string) (self : GerritChange.t)
  : io returned :=
  id <~ io_lift (id self) ;;
  rev <~ io_lift (revision self) ;;
  GerritRestAPI.get lib (GerritChange.gerrit self)
    ("/changes/" ++ id ++ "/revisions/" ++ py_str repr rev ++ "/files/"
       ++ filename ++ "/content") false [].

Definition publish_edit (self : GerritChange.t) : io returned :=
  id <~ io_lift (id self) ;;
  GerritRestAPI.post lib (GerritChange.gerrit self)
    ("/changes/" ++ id ++ "/edit:publish") false [].

Definition delete_edit (self : GerritChange.t) : io returned :=
  id <~ io_lift (id self) ;;
  GerritRestAPI.delete lib (GerritChange.gerrit self)
    ("/changes/" ++ id ++ "/edit") false [].

Definition publish (self : GerritChange.t) : io returned :=
  id <~ io_lift (id self) ;;
  GerritRestAPI.post lib (GerritChange.gerrit self)
    ("/changes/" ++ id ++ "/publish") false [].

Definition add_reviewer (reviewer : pyval) (self : GerritChange.t)
  : io returned :=
  id <~ io_lift (id self) ;;
  GerritRestAPI.post lib (GerritChange.gerrit self)
    ("/changes/" ++ id ++ "/reviewers") false
    [("json", VDict [("reviewer", reviewer)])].

(** [reload]: the object after the call.  The [__dict__] of the change
    found, its [gerrit] attribute included, is laid over [self.__dict__]. *)
Definition reload (self : GerritChange.t) : io GerritChange.t :=
  id <~ io_lift (id self) ;;
  found <~ GerritClient.get_change lib (GerritChange.gerrit self)
             [("change", VStr id)] ;;
  match found with
  | None => io_lift (Raise (AttributeError "__dict__"))
  | Some other =>
      io_ret {| GerritChange.gerrit := GerritChange.gerrit other;
                GerritChange.attrs :=
                  update (GerritChange.attrs self) (GerritChange.attrs other) |}
  end.

(** [add_review]: the object after the call and what [post] returned;
    [kwargs] are the keywords of the call. *)
Definition add_review (kwargs : dict) (self : GerritChange.t)
  : io (GerritChange.t * returned) :=
  self <~ reload self ;;
  id <~ io_lift (id self) ;;
  rev <~ io_lift (revision self) ;;
  posted <~ GerritRestAPI.post lib (GerritChange.gerrit self)
              ("/changes/" ++ id ++ "/revisions/" ++ py_str repr rev ++ "/review")
              false [("json", VDict kwargs)] ;;
  io_ret (self, posted).

Definition __str__ (self : GerritChange.t) : result string :=
  c <- change_id self ;;
  Ok ("Change-Id " ++ py_str repr c).

End Methods.
End GerritChangeMethods.

(** ** Definitions used by the statements *)

(** The requests a computation dispatched, and its outcome. *)
Definition sent {A : Type} (m : io A) : list request := fst m.
Definition outcome {A : Type} (m : io A) : result A := snd m.


(** The text that reaches [raise_for_status]: the stripped body, decoded
    when the response declares an encoding. *)
Definition decoded_text (lib : pylib) (r : response) : result string :=
  match declared_encoding r with
  | Some e => bytes_decode lib e (strip (content r))
  | None => Ok (strip (content r))
  end.

Definition with_content (r : response) (body : string) : response :=
  {| status_code := status_code r; headers := headers r;
     content := body; encoding := encoding r |}.

(** The reviews a program can hold: built by the constructor, then changed
    by the three mutators, whether they return or raise. *)
Inductive reachable : GerritReview.t -> Prop :=
| reach_init : forall message labels comments self,
    GerritReview.__init__ message labels comments = Ok self ->
    reachable self
| reach_set_message : forall message self,
    reachable self ->
    reachable (fst (GerritReview.set_message message self))
| reach_add_labels : forall labels self,
    reachable self ->
    reachable (fst (GerritReview.add_labels labels self))
| reach_add_comments : forall comments self,
    reachable self ->
    reachable (fst (GerritReview.add_comments comments self)).

(** Every value of a comments mapping is a list. *)
Definition lists_only (d : dict) : Prop :=
  forall k v, lookup k d = Some v -> is_list v = true.

(** An inline comment for the file [path] and the entry stored for it: a
    range comment when it has a range, else a point-line comment. *)
Inductive inline_comment (path : string) : dict -> pyval -> Prop :=
| range_comment : forall c r m,
    lookup "filename" c = Some (VStr path) ->
    lookup "message" c = Some m ->
    lookup "range" c = Some r ->
    inline_comment path c (VDict [("range", r); ("message", m)])
| line_comment : forall c l m,
    lookup "filename" c = Some (VStr path) ->
    lookup "message" c = Some m ->
    lookup "range" c = None ->
    lookup "line" c = Some l ->
    inline_comment path c (VDict [("line", l); ("message", m)]).

(** The comments already stored for a file. *)
Definition stored_comments (path : string) (self : GerritReview.t)
  : list pyval :=
  match GerritReview.comments self with
  | VDict d => match lookup path d with Some (VList l) => l | _ => [] end
  | _ => []
  end.



(** The structured bodies of the write verbs. *)
Definition structured_body (kwargs : dict) : Prop :=
  (exists d, lookup "data" kwargs = Some (VDict d)) \/ contains "json" kwargs = true.

(** A codec table that knows the strict [ascii] codec only. *)
Definition ascii_codec (enc bytes : string) : result string :=
  if (lower enc =? "ascii")%string then
    if forallb (fun c => Nat.ltb (nat_of_ascii c) 128) (list_ascii_of_string bytes)
    then Ok bytes else Raise UnicodeDecodeError
  else Raise (LookupError enc).

(** A reader of the three JSON literals. *)
Definition literal_loads (s : string) : result pyval :=
  let t := strip s in
  if (t =? "null")%string then Ok VNone
  else if (t =? "true")%string then Ok (VBool true)
  else if (t =? "false")%string then Ok (VBool false)
  else Raise (ValueError "No JSON object could be decoded").

(** A server for the examples: every request is answered by [answer]. *)
Definition example_lib (answer : response) : pylib := {|
  json_loads := literal_loads;
  json_dumps := fun _ => Ok "{}";
  bytes_decode := ascii_codec;
  urlencode := fun q =>
    match lookup "q" q with Some (VStr s) => "q=" ++ s | _ => "" end;
  session_request := fun _ => Ok answer
|}.

Definition json_response (status : Z) (body : string) : response := {|
  status_code := status;
  headers := [("Content-Type", "application/json; charset=UTF-8")];
  content := body;
  encoding := Some "ascii"
|}.

(** One turn of the loop of [_merge_dict]. *)
Definition merge_key (result : dict) (key : string) (v : pyval) : dict :=
  match lookup key result, v with
  | Some (VDict r), VDict o => setitem key (VDict (_merge_dict r o)) result
  | _, _ => setitem key v result
  end.

(** The value the specification puts under a key of the overlay: the
    recursive merge when base and overlay both hold a mapping there, else
    the overlay value. *)
Definition merged_value (base : option pyval) (over : pyval) : pyval :=
  match base, over with
  | Some (VDict r), VDict o => VDict (_merge_dict r o)
  | _, _ => over
  end.

(** The caller's headers do not set a content type of their own. *)
Definition no_own_content_type (kwargs : dict) : Prop :=
  lookup "headers" kwargs = None \/
  exists ch, lookup "headers" kwargs = Some (VDict ch) /\
             NoDup (keys ch) /\ lookup "Content-Type" ch = None.

(** The options the write verbs dispatch: the injected content type when
    [inject] holds, then the client defaults, then the caller's options. *)
Definition write_options (inject : bool) (self : client) (kwargs : dict) : dict :=
  let args := if inject then _merge_dict [] GerritRestAPI.content_type_header else [] in
  _merge_dict (_merge_dict args (self_kwargs self)) kwargs.

Definition default_headers : dict :=
  [("Accept", VStr "application/json"); ("Accept-Encoding", VStr "gzip")].

(** The library with another [json.loads]. *)
Definition with_json_loads (lib : pylib) (loads : string -> result pyval)
  : pylib := {|
  json_loads := loads;
  json_dumps := json_dumps lib;
  bytes_decode := bytes_decode lib;
  urlencode := urlencode lib;
  session_request := session_request lib
|}.

Definition LF : string := String (ascii_of_nat 10) "".

(** What a review has to satisfy for its methods to work: labels and
    comments are mappings, and every file path maps to a list. *)
Definition review_inv (self : GerritReview.t) : Prop :=
  exists ls cs,
    GerritReview.labels self = VDict ls /\
    GerritReview.comments self = VDict cs /\
    lists_only cs.

(** A server and a JSON reader for the query example: one change is
    reported whatever is asked. *)
Definition example_changes : list dict :=
  [[("_number", VInt 7); ("change_id", VStr "I8473b95934b5732ac55d26311a706c9c2bde9940")]].

Definition changes_lib : pylib := {|
  json_loads := fun _ => Ok (VList (map VDict example_changes));
  json_dumps := fun _ => Ok "{}";
  bytes_decode := ascii_codec;
  urlencode := fun q =>
    match lookup "q" q with Some (VStr s) => "q=" ++ s | _ => "" end;
  session_request := fun _ =>
    Ok (json_response 200 (GERRIT_MAGIC_JSON_PREFIX ++ "[]"))
|}.

(** A string of white space only. *)
Fixpoint blank (s : string) : bool :=
  match s with
  | EmptyString => true
  | String c s' => (is_space c && blank s')%bool
  end.

(** How deep mappings are nested inside a value. *)
Fixpoint depth (v : pyval) : nat :=
  match v with
  | VDict d => S (fold_right (fun p acc => Nat.max (depth (snd p)) acc) O d)
  | _ => O
  end.

(** A well-formed value: the keys of a mapping are distinct, and so are
    those of every mapping nested in it, as in any Python [dict]. *)
Fixpoint distinct_keys (v : pyval) : Prop :=
  match v with
  | VDict d =>
      NoDup (keys d) /\
      fold_right (fun p acc => distinct_keys (snd p) /\ acc) True d
  | _ => True
  end.

(** * Properties *)

(** ** Strings *)

Lemma append_assoc (a b c : string) : (a ++ b) ++ c = a ++ (b ++ c).
Proof. induction a as [|x a IH]; simpl; [reflexivity | now rewrite IH]. Qed.

Lemma endswith_app (p suffix : string) : endswith (p ++ suffix) suffix = true.
Proof.
  induction p as [|c p IH]; cbn [endswith append].
  - destruct suffix; cbn [endswith]; rewrite String.eqb_refl; reflexivity.
  - rewrite IH. apply orb_true_r.
Qed.

Lemma endswith_inv (s suffix : string) :
  endswith s suffix = true -> exists p, s = p ++ suffix.
Proof.
  induction s as [|c s IH]; cbn [endswith]; intros H.
  - rewrite orb_false_r in H. apply String.eqb_eq in H. now exists "".
  - apply orb_true_iff in H. destruct H as [H | H].
    + apply String.eqb_eq in H. exists "". now rewrite H.
    + destruct (IH H) as [p ->]. now exists (String c p).
Qed.

(** A string that ends with a character other than [c] does not end
    with [c]. *)
Lemma endswith_other_char (p : string) (a c : ascii) :
  a <> c -> endswith (p ++ String a "") (String c "") = false.
Proof.
  intros Hac. induction p as [|x p IH]; simpl.
  - destruct (Ascii.eqb_spec a c) as [->|_]; [contradiction | reflexivity].
  - rewrite IH. rewrite orb_false_r.
    destruct (Ascii.eqb_spec x c); [| reflexivity].
    destruct p; reflexivity.
Qed.

Lemma auth_suffix_no_slash (p : string) :
  endswith (p ++ GERRIT_AUTH_SUFFIX) "/" = false.
Proof.
  change GERRIT_AUTH_SUFFIX with ("/" ++ "a").
  rewrite <- append_assoc. apply endswith_other_char. discriminate.
Qed.

Lemma rstrip_slash_id (s : string) :
  endswith s "/" = false -> rstrip_by is_slash s = s.
Proof.
  induction s as [|c s IH]; simpl; [reflexivity |].
  intros H. apply orb_false_iff in H. destruct H as [Hc Hs].
  destruct s as [|d s].
  - simpl. unfold is_slash.
    destruct (Ascii.eqb_spec c "/") as [->|_]; [discriminate Hc | reflexivity].
  - rewrite IH by exact Hs. reflexivity.
Qed.

Lemma substring_prefix (p rest : string) :
  substring 0 (String.length p) (p ++ rest) = p.
Proof.
  induction p as [|c p IH]; simpl.
  - destruct rest; reflexivity.
  - now rewrite IH.
Qed.

Lemma length_append (a b : string) :
  String.length (a ++ b) = (String.length a + String.length b)%nat.
Proof. induction a as [|c a IH]; simpl; [reflexivity | now rewrite IH]. Qed.

Lemma slice_to_neg_app (p suffix : string) :
  slice_to_neg (String.length suffix) (p ++ suffix) = p.
Proof.
  unfold slice_to_neg. rewrite length_append.
  replace (String.length p + String.length suffix - String.length suffix)%nat
    with (String.length p) by lia.
  apply substring_prefix.
Qed.

(** ** Construction of the client *)

Lemma init_no_auth (url : string) (auth verify : pyval) :
  truthy auth = false ->
  endswith url "/" = false ->
  exists self,
    GerritRestAPI.__init__ url auth verify = Ok self /\
    self_url self =
      if endswith url GERRIT_AUTH_SUFFIX
      then let p := slice_to_neg 2 url in if endswith p "/" then p else p ++ "/"
      else url ++ "/".
Proof.
  intros Hauth Hurl. unfold GerritRestAPI.__init__.
  rewrite Hauth, (rstrip_slash_id _ Hurl).
  destruct (endswith url GERRIT_AUTH_SUFFIX) eqn:Hsuf; simpl.
  - eexists; split; [reflexivity |]. simpl.
    destruct (endswith (slice_to_neg 2 url) "/"); reflexivity.
  - eexists; split; [reflexivity |]. simpl. now rewrite Hurl.
Qed.

Lemma init_with_auth (url : string) (auth verify : pyval) :
  truthy auth = true ->
  is_AuthBase auth = true ->
  endswith url "/" = false ->
  exists self,
    GerritRestAPI.__init__ url auth verify = Ok self /\
    self_url self =
      if endswith url GERRIT_AUTH_SUFFIX then url ++ "/"
      else url ++ GERRIT_AUTH_SUFFIX ++ "/".
Proof.
  intros Hauth Hbase Hurl. unfold GerritRestAPI.__init__.
  rewrite Hauth, Hbase, (rstrip_slash_id _ Hurl). simpl negb at 1.
  destruct (endswith url GERRIT_AUTH_SUFFIX) eqn:Hsuf; simpl.
  - eexists; split; [reflexivity |]. simpl. now rewrite Hurl.
  - eexists; split; [reflexivity |]. simpl.
    rewrite auth_suffix_no_slash. simpl. now rewrite append_assoc.
Qed.

(** ** Dictionaries *)

Lemma lookup_setitem_same (key : string) (v : pyval) (d : dict) :
  lookup key (setitem key v d) = Some v.
Proof.
  induction d as [|[k w] d IH]; simpl.
  - now rewrite String.eqb_refl.
  - destruct (String.eqb_spec k key) as [->|Hk]; simpl.
    + now rewrite String.eqb_refl.
    + destruct (String.eqb_spec k key); [contradiction | exact IH].
Qed.

Lemma lookup_setitem_other (key key' : string) (v : pyval) (d : dict) :
  key <> key' -> lookup key' (setitem key v d) = lookup key' d.
Proof.
  intros Hne. induction d as [|[k w] d IH]; simpl.
  - destruct (String.eqb_spec key key'); [contradiction | reflexivity].
  - destruct (String.eqb_spec k key) as [->|Hk]; simpl.
    + destruct (String.eqb_spec key key'); [contradiction | reflexivity].
    + now rewrite IH.
Qed.

Lemma lookup_absent (key : string) (d : dict) :
  ~ In key (keys d) -> lookup key d = None.
Proof.
  induction d as [|[k w] d IH]; simpl; intros H; [reflexivity |].
  destruct (String.eqb_spec k key) as [->|Hk].
  - exfalso. apply H. now left.
  - apply IH. intros Hin. apply H. now right.
Qed.

Lemma mem_keys (key : string) (d : dict) :
  GerritReview.mem key (keys d) = contains key d.
Proof.
  unfold contains, GerritReview.mem.
  induction d as [|[k w] d IH]; simpl; [reflexivity |].
  rewrite String.eqb_sym.
  destruct (k =? key)%string; simpl; [reflexivity | exact IH].
Qed.

(** ** The dict merger *)

Lemma merge_dict_nil (result : dict) : _merge_dict result [] = result.
Proof. reflexivity. Qed.

Lemma merge_dict_cons (result : dict) (key : string) (v : pyval) (rest : dict) :
  _merge_dict result ((key, v) :: rest) = _merge_dict (merge_key result key v) rest.
Proof.
  unfold _merge_dict, merge_key. cbn [merge_into].
  destruct (lookup key result) as [[]|]; destruct v; reflexivity.
Qed.

Lemma lookup_merge_key_same (result : dict) (key : string) (v : pyval) :
  lookup key (merge_key result key v) = Some (merged_value (lookup key result) v).
Proof.
  unfold merge_key, merged_value.
  destruct (lookup key result) as [[]|]; destruct v;
    apply lookup_setitem_same.
Qed.

Lemma lookup_merge_key_other (result : dict) (key key' : string) (v : pyval) :
  key <> key' -> lookup key' (merge_key result key v) = lookup key' result.
Proof.
  intros Hne. unfold merge_key.
  destruct (lookup key result) as [[]|]; destruct v;
    now apply lookup_setitem_other.
Qed.

Lemma merge_dict_lookup (overrides result : dict) (key : string) :
  NoDup (keys overrides) ->
  lookup key (_merge_dict result overrides) =
    match lookup key overrides with
    | Some over => Some (merged_value (lookup key result) over)
    | None => lookup key result
    end.
Proof.
  revert result. induction overrides as [|[k v] rest IH]; intros result Hnd.
  - reflexivity.
  - rewrite merge_dict_cons. simpl in Hnd. inversion Hnd as [|? ? Hk Hrest]; subst.
    rewrite (IH _ Hrest). cbn [lookup].
    destruct (String.eqb_spec k key) as [->|Hne].
    + rewrite (lookup_absent _ _ Hk). apply lookup_merge_key_same.
    + rewrite (lookup_merge_key_other _ _ _ _ Hne). reflexivity.
Qed.

(** C5: [_merge_dict] handles each key of the overlay on its own: where base
    and overlay both hold a mapping under the key the two are merged
    recursively, otherwise the overlay value replaces the base value, and
    keys absent from the overlay keep their base value.  So
    [{a: {x: 1}}] merged with [{a: {y: 2}}] is [{a: {x: 1, y: 2}}], and
    [{a: 1}] merged with [{a: {y: 2}}] is [{a: {y: 2}}]. *)
Theorem merge_dict_spec :
  (forall (result overrides : dict) (key : string),
      NoDup (keys overrides) ->
      lookup key (_merge_dict result overrides) =
        match lookup key overrides with
        | Some over =>
            match lookup key result, over with
            | Some (VDict r), VDict o => Some (VDict (_merge_dict r o))
            | _, _ => Some over
            end
        | None => lookup key result
        end) /\
  _merge_dict [("a", VDict [("x", VInt 1)])] [("a", VDict [("y", VInt 2)])]
    = [("a", VDict [("x", VInt 1); ("y", VInt 2)])] /\
  _merge_dict [("a", VInt 1)] [("a", VDict [("y", VInt 2)])]
    = [("a", VDict [("y", VInt 2)])].
Proof.
  split; [| split; reflexivity].
  intros result overrides key Hnd.
  rewrite (merge_dict_lookup _ _ _ Hnd).
  destruct (lookup key overrides) as [over|]; [| reflexivity].
  unfold merged_value.
  destruct (lookup key result) as [[]|]; destruct over; reflexivity.
Qed.

Lemma merge_dict_spec_witness :
  lookup "a" (_merge_dict [("a", VDict [("x", VInt 1)]); ("b", VInt 0)]
                          [("a", VDict [("y", VInt 2)])])
  = Some (VDict (_merge_dict [("x", VInt 1)] [("y", VInt 2)])).
Proof.
  apply (proj1 merge_dict_spec
           [("a", VDict [("x", VInt 1)]); ("b", VInt 0)]
           [("a", VDict [("y", VInt 2)])] "a").
  simpl. constructor; [simpl; tauto | constructor].
Defined.

(** C6, as the code has it: for a URL without a trailing slash, a client
    built without an auth handle stores the URL followed by one slash when
    the URL does not end in [/a]; when it does, that one suffix is cut and a
    slash is appended unless the rest already ends in one.  A client built
    with an auth handle stores the URL followed by [/a/], or by [/] alone
    when the URL already ends in [/a]. *)
Theorem init_normalizes_url (url : string) (auth verify : pyval) :
  endswith url "/" = false ->
  (truthy auth = false ->
     exists self,
       GerritRestAPI.__init__ url auth verify = Ok self /\
       (endswith url "/a" = false -> self_url self = url ++ "/") /\
       (forall p, url = p ++ "/a" ->
          self_url self = if endswith p "/" then p else p ++ "/")) /\
  (truthy auth = true -> is_AuthBase auth = true ->
     exists self,
       GerritRestAPI.__init__ url auth verify = Ok self /\
       self_url self = if endswith url "/a" then url ++ "/" else url ++ "/a/").
Proof.
  intros Hurl. split.
  - intros Hauth.
    destruct (init_no_auth url auth verify Hauth Hurl) as [self [Hinit Hself]].
    exists self. split; [exact Hinit |]. split.
    + intros Hsuf. change GERRIT_AUTH_SUFFIX with "/a" in Hself.
      now rewrite Hsuf in Hself.
    + intros p ->. rewrite endswith_app in Hself. cbv zeta in Hself.
      change 2%nat with (String.length "/a") in Hself.
      now rewrite slice_to_neg_app in Hself.
  - intros Hauth Hbase.
    destruct (init_with_auth url auth verify Hauth Hbase Hurl) as [self [Hinit Hself]].
    exists self. split; [exact Hinit | exact Hself].
Qed.

Lemma init_normalizes_url_witness :
  (exists self,
     GerritRestAPI.__init__ "http://review.example.com" VNone (VBool true) = Ok self /\
     self_url self = "http://review.example.com/") /\
  (exists self,
     GerritRestAPI.__init__ "http://review.example.com" (VAuth "basic") (VBool true)
       = Ok self /\
     self_url self = "http://review.example.com/a/").
Proof.
  pose proof (init_normalizes_url "http://review.example.com" VNone (VBool true)
                eq_refl) as [Hnone _].
  pose proof (init_normalizes_url "http://review.example.com" (VAuth "basic")
                (VBool true) eq_refl) as [_ Hauth].
  split.
  - destruct (Hnone eq_refl) as [self [Hinit [Hurl _]]].
    exists self. split; [exact Hinit | exact (Hurl eq_refl)].
  - destruct (Hauth eq_refl eq_refl) as [self [Hinit Hurl]].
    exists self. split; [exact Hinit | exact Hurl].
Defined.

(** C6 fails as it is worded: without an auth handle only one [/a] suffix is
    cut, so a URL ending in [/a/a] leaves a base URL that still ends in
    [/a/], and the stored URL is not the given one with a slash appended. *)
Lemma init_keeps_inner_suffix :
  endswith "http://host/a/a" "/" = false /\
  exists self,
    GerritRestAPI.__init__ "http://host/a/a" VNone (VBool true) = Ok self /\
    self_url self = "http://host/a/" /\
    self_url self <> "http://host/a/a" ++ "/" /\
    endswith (self_url self) "/a/" = true.
Proof.
  split; [reflexivity |].
  eexists. split; [reflexivity |].
  split; [reflexivity |]. split; [discriminate | reflexivity].
Qed.

(** ** The verbs *)

Lemma lookup_update (other d : dict) (key : string) :
  NoDup (keys other) ->
  lookup key (update d other) =
    match lookup key other with Some v => Some v | None => lookup key d end.
Proof.
  unfold update. revert d.
  induction other as [|[k v] rest IH]; intros d Hnd; [reflexivity |].
  inversion Hnd as [|? ? Hk Hrest]; subst. cbn [fold_left fst snd lookup].
  rewrite (IH _ Hrest).
  destruct (String.eqb_spec k key) as [->|Hne].
  - rewrite (lookup_absent _ _ Hk). apply lookup_setitem_same.
  - destruct (lookup key rest); [reflexivity |].
    now apply lookup_setitem_other.
Qed.

Lemma sent_exchange (lib : pylib) (m : method) (u : string) (opts : dict)
  (return_response : bool) :
  sent (response <~ session_call lib m u opts ;;
        decoded_response <~ io_lift (_decode_response lib response) ;;
        io_ret (GerritRestAPI.finish return_response decoded_response response))
  = [{| verb := m; target := u; options := opts |}].
Proof.
  unfold sent, session_call, io_bind, io_lift, io_ret.
  destruct (session_request lib _) as [r|e]; [| reflexivity].
  destruct (_decode_response lib r); reflexivity.
Qed.

Lemma get_sent lib self endpoint return_response kwargs :
  sent (GerritRestAPI.get lib self endpoint return_response kwargs) =
    [{| verb := GET; target := GerritRestAPI.make_url self endpoint;
        options := update kwargs (self_kwargs self) |}].
Proof. apply sent_exchange. Qed.

Lemma put_sent lib self endpoint return_response kwargs :
  sent (GerritRestAPI.put lib self endpoint return_response kwargs) =
    [{| verb := PUT; target := GerritRestAPI.make_url self endpoint;
        options :=
          write_options
            ((match lookup "data" kwargs with Some v => is_dict v | None => false end)
             || contains "json" kwargs) self kwargs |}].
Proof. apply sent_exchange. Qed.

Lemma post_sent lib self endpoint return_response kwargs :
  sent (GerritRestAPI.post lib self endpoint return_response kwargs) =
    [{| verb := POST; target := GerritRestAPI.make_url self endpoint;
        options :=
          write_options
            ((match lookup "data" kwargs with Some v => is_dict v | None => false end)
             || contains "json" kwargs) self kwargs |}].
Proof. apply sent_exchange. Qed.

Lemma delete_sent lib self endpoint return_response kwargs :
  sent (GerritRestAPI.delete lib self endpoint return_response kwargs) =
    [{| verb := DELETE; target := GerritRestAPI.make_url self endpoint;
        options :=
          write_options (contains "data" kwargs || contains "json" kwargs)
            self kwargs |}].
Proof. apply sent_exchange. Qed.

Lemma init_kwargs (url : string) (auth verify : pyval) (self : client) :
  GerritRestAPI.__init__ url auth verify = Ok self ->
  self_kwargs self =
    [("auth", auth); ("verify", verify); ("headers", VDict default_headers)].
Proof.
  unfold GerritRestAPI.__init__. intros H.
  destruct (truthy auth).
  - destruct (is_AuthBase auth); [| discriminate H].
    cbn [negb] in H.
    destruct (negb (endswith _ GERRIT_AUTH_SUFFIX)); cbn [bind] in H;
      injection H as <-; reflexivity.
  - destruct (endswith _ GERRIT_AUTH_SUFFIX); cbn [bind] in H;
      injection H as <-; reflexivity.
Qed.

Lemma merged_value_plain (base : option pyval) (v : pyval) :
  is_dict v = false -> merged_value base v = v.
Proof.
  intros H. unfold merged_value.
  destruct base as [[]|]; destruct v; try reflexivity; discriminate H.
Qed.

(** [get]: a default of the client replaces the caller's option of the
    same name. *)
Lemma get_defaults_win lib self endpoint return_response kwargs key d :
  NoDup (keys (self_kwargs self)) ->
  lookup key (self_kwargs self) = Some d ->
  exists rq,
    sent (GerritRestAPI.get lib self endpoint return_response kwargs) = [rq] /\
    lookup key (options rq) = Some d.
Proof.
  intros Hnd Hd. eexists. split; [apply get_sent |].
  cbn [options]. rewrite (lookup_update _ _ _ Hnd), Hd. reflexivity.
Qed.

(** [put], [post], [delete]: the caller's option replaces the default of
    the same name, and inside a mapping option each of the caller's entries
    replaces the default entry. *)
Lemma write_options_caller_wins inject self kwargs key v :
  NoDup (keys kwargs) ->
  lookup key kwargs = Some v ->
  (is_dict v = false ->
     lookup key (write_options inject self kwargs) = Some v) /\
  (forall o k w,
     v = VDict o -> NoDup (keys o) -> lookup k o = Some w -> is_dict w = false ->
     exists merged,
       lookup key (write_options inject self kwargs) = Some (VDict merged) /\
       lookup k merged = Some w).
Proof.
  intros Hnd Hv. unfold write_options. cbv zeta.
  rewrite (merge_dict_lookup _ _ _ Hnd), Hv. split.
  - intros Hplain. now rewrite merged_value_plain.
  - intros o k w -> Hndo Hw Hplain. unfold merged_value.
    destruct (lookup key (_merge_dict _ (self_kwargs self))) as [[]|];
      try (exists o; split; [reflexivity | exact Hw]).
    eexists. split; [reflexivity |].
    rewrite (merge_dict_lookup _ _ _ Hndo), Hw.
    now rewrite merged_value_plain.
Qed.

(** C1 fails for [get]: it runs [kwargs.update(self.kwargs)], so the
    client defaults replace the caller's options.  A caller who passes
    [verify=False] to a client built with [verify=True] has [verify=True]
    dispatched by [get], while [put], [post] and [delete] dispatch the
    caller's [verify=False]. *)
Theorem get_defaults_replace_caller_options :
  exists self,
    GerritRestAPI.__init__ "http://review.example.com" VNone (VBool true) = Ok self /\
    let lib := example_lib (json_response 200 "null") in
    let kwargs := [("verify", VBool false)] in
    (exists rq,
       sent (GerritRestAPI.get lib self "changes/" false kwargs) = [rq] /\
       lookup "verify" kwargs = Some (VBool false) /\
       lookup "verify" (self_kwargs self) = Some (VBool true) /\
       lookup "verify" (options rq) = Some (VBool true)) /\
    (forall verb,
       In verb [GerritRestAPI.put; GerritRestAPI.post; GerritRestAPI.delete] ->
       exists rq,
         sent (verb lib self "changes/" false kwargs) = [rq] /\
         lookup "verify" (options rq) = Some (VBool false)).
Proof.
  eexists. split; [reflexivity |]. cbv zeta. split.
  - eexists. split; [reflexivity |]. repeat split.
  - intros verb [<- | [<- | [<- | []]]]; eexists; split; reflexivity.
Qed.

Lemma fresh_write_headers (inject : bool) (self : client) (auth verify : pyval)
  (kwargs : dict) :
  self_kwargs self =
    [("auth", auth); ("verify", verify); ("headers", VDict default_headers)] ->
  NoDup (keys kwargs) ->
  lookup "headers" (write_options inject self kwargs) =
    let base :=
      VDict (if inject
             then ("Content-Type", VStr "application/json;charset=UTF-8")
                    :: default_headers
             else default_headers) in
    match lookup "headers" kwargs with
    | Some over => Some (merged_value (Some base) over)
    | None => Some base
    end.
Proof.
  intros Hself Hnd. unfold write_options. cbv zeta.
  rewrite (merge_dict_lookup _ _ _ Hnd), Hself.
  destruct inject; reflexivity.
Qed.

Lemma structured_body_put_post (kwargs : dict) :
  structured_body kwargs ->
  ((match lookup "data" kwargs with Some v => is_dict v | None => false end)
   || contains "json" kwargs)%bool = true.
Proof.
  intros [[d Hd] | Hjson].
  - now rewrite Hd.
  - rewrite Hjson. apply orb_true_r.
Qed.

Lemma structured_body_delete (kwargs : dict) :
  structured_body kwargs ->
  (contains "data" kwargs || contains "json" kwargs)%bool = true.
Proof.
  intros [[d Hd] | Hjson].
  - unfold contains at 1. now rewrite Hd.
  - rewrite Hjson. apply orb_true_r.
Qed.

Lemma injected_headers (self : client) (auth verify : pyval) (kwargs : dict) :
  self_kwargs self =
    [("auth", auth); ("verify", verify); ("headers", VDict default_headers)] ->
  NoDup (keys kwargs) ->
  no_own_content_type kwargs ->
  exists hs,
    lookup "headers" (write_options true self kwargs) = Some (VDict hs) /\
    lookup "Content-Type" hs = Some (VStr "application/json;charset=UTF-8") /\
    lookup "Accept" hs <> None /\
    lookup "Accept-Encoding" hs <> None /\
    (lookup "headers" kwargs = None ->
     hs = ("Content-Type", VStr "application/json;charset=UTF-8") :: default_headers).
Proof.
  intros Hself Hnd Hown.
  rewrite (fresh_write_headers true self auth verify kwargs Hself Hnd). cbv zeta.
  destruct Hown as [Hnone | [ch [Hch [Hndc Hct]]]].
  - rewrite Hnone. eexists. split; [reflexivity |].
    repeat split; discriminate.
  - rewrite Hch. cbn [merged_value]. eexists. split; [reflexivity |].
    rewrite !(merge_dict_lookup _ _ _ Hndc), Hct.
    split; [reflexivity |]. split; [| split].
    + destruct (lookup "Accept" ch); discriminate.
    + destruct (lookup "Accept-Encoding" ch); discriminate.
    + intros H. discriminate H.
Qed.

(** C7, as the code has it: when the caller of [put], [post] or [delete]
    passes a structured body (a mapping under [data], or any [json]) to a
    client as constructed, and passes no [headers] option or one that is a
    mapping without a [Content-Type] entry of its own, the one request
    dispatched carries [Content-Type: application/json;charset=UTF-8], and
    [Accept] and [Accept-Encoding] are still present; with no [headers]
    option the headers are exactly these three. *)
Theorem write_verbs_content_type (lib : pylib) (url : string)
  (auth verify : pyval) (self : client) (endpoint : string)
  (return_response : bool) (kwargs : dict) :
  GerritRestAPI.__init__ url auth verify = Ok self ->
  NoDup (keys kwargs) ->
  structured_body kwargs ->
  no_own_content_type kwargs ->
  forall verb,
    In verb [GerritRestAPI.put; GerritRestAPI.post; GerritRestAPI.delete] ->
    exists rq hs,
      sent (verb lib self endpoint return_response kwargs) = [rq] /\
      lookup "headers" (options rq) = Some (VDict hs) /\
      lookup "Content-Type" hs = Some (VStr "application/json;charset=UTF-8") /\
      lookup "Accept" hs <> None /\
      lookup "Accept-Encoding" hs <> None /\
      (lookup "headers" kwargs = None ->
       hs = [("Content-Type", VStr "application/json;charset=UTF-8");
             ("Accept", VStr "application/json");
             ("Accept-Encoding", VStr "gzip")]).
Proof.
  intros Hinit Hnd Hbody Hown verb Hverb.
  apply init_kwargs in Hinit.
  destruct (injected_headers self auth verify kwargs Hinit Hnd Hown)
    as [hs [Hhs Hrest]].
  destruct Hverb as [<- | [<- | [<- | []]]]; eexists; exists hs.
  - rewrite put_sent. split; [reflexivity |]. cbn [options].
    rewrite (structured_body_put_post _ Hbody). split; [exact Hhs | exact Hrest].
  - rewrite post_sent. split; [reflexivity |]. cbn [options].
    rewrite (structured_body_put_post _ Hbody). split; [exact Hhs | exact Hrest].
  - rewrite delete_sent. split; [reflexivity |]. cbn [options].
    rewrite (structured_body_delete _ Hbody). split; [exact Hhs | exact Hrest].
Qed.

Lemma write_verbs_content_type_witness :
  exists self rq hs,
    GerritRestAPI.__init__ "http://review.example.com" (VAuth "basic") (VBool true)
      = Ok self /\
    sent (GerritRestAPI.post (example_lib (json_response 200 "null")) self
            "/changes/" false
            [("json", VDict [("project", VStr "tools")]);
             ("headers", VDict [("X-Trace", VStr "1")])]) = [rq] /\
    lookup "headers" (options rq) = Some (VDict hs) /\
    lookup "Content-Type" hs = Some (VStr "application/json;charset=UTF-8") /\
    lookup "Accept" hs <> None /\
    lookup "Accept-Encoding" hs <> None.
Proof.
  destruct (GerritRestAPI.__init__ "http://review.example.com" (VAuth "basic")
              (VBool true)) as [self|e] eqn:Hinit; [| discriminate Hinit].
  assert (Hnd : NoDup (keys [("json", VDict [("project", VStr "tools")]);
                             ("headers", VDict [("X-Trace", VStr "1")])])).
  { repeat constructor; simpl; intuition discriminate. }
  assert (Hbody : structured_body [("json", VDict [("project", VStr "tools")]);
                                   ("headers", VDict [("X-Trace", VStr "1")])]).
  { right. reflexivity. }
  assert (Hown : no_own_content_type
                   [("json", VDict [("project", VStr "tools")]);
                    ("headers", VDict [("X-Trace", VStr "1")])]).
  { right. exists [("X-Trace", VStr "1")]. split; [reflexivity |].
    split; [| reflexivity]. repeat constructor. simpl. tauto. }
  destruct (write_verbs_content_type (example_lib (json_response 200 "null"))
              "http://review.example.com" (VAuth "basic") (VBool true) self
              "/changes/" false _ Hinit Hnd Hbody Hown GerritRestAPI.post
              (or_intror (or_introl eq_refl)))
    as [rq [hs [Hsent [Hhs [Hct [Hacc [Henc _]]]]]]].
  exists self, rq, hs. repeat split; assumption.
Defined.

(** C7 fails as it is worded: the caller's options are merged last, so a
    caller who sends a JSON body together with a [Content-Type] header of
    its own has its own content type dispatched, not
    [application/json;charset=UTF-8]. *)
Lemma caller_content_type_wins :
  exists self rq hs,
    GerritRestAPI.__init__ "http://review.example.com" VNone (VBool true) = Ok self /\
    let kwargs := [("json", VDict []);
                   ("headers", VDict [("Content-Type", VStr "text/plain")])] in
    structured_body kwargs /\
    sent (GerritRestAPI.post (example_lib (json_response 200 "null")) self
            "/changes/" false kwargs) = [rq] /\
    lookup "headers" (options rq) = Some (VDict hs) /\
    lookup "Content-Type" hs = Some (VStr "text/plain") /\
    lookup "Content-Type" hs <> Some (VStr "application/json;charset=UTF-8").
Proof.
  eexists. eexists. eexists. split; [reflexivity |]. cbv zeta.
  split; [right; reflexivity |].
  split; [reflexivity |]. split; [reflexivity |].
  split; [reflexivity | discriminate].
Qed.

(** ** The response decoder *)














Lemma rstrip_lstrip (s : string) : rstrip (lstrip s) = lstrip (rstrip s).
Proof.
  unfold rstrip, lstrip. induction s as [|c s IH]; [reflexivity |].
  cbn [rstrip_by lstrip_by]. destruct (is_space c) eqn:Ec.
  - rewrite IH. destruct (rstrip_by is_space s) as [|d t]; [reflexivity |].
    cbn [lstrip_by]. now rewrite Ec.
  - cbn [rstrip_by].
    destruct (rstrip_by is_space s) as [|d t]; rewrite ?Ec;
      cbn [lstrip_by]; now rewrite Ec.
Qed.









(** ** Reviews *)

(** C2 fails on the code: [GerritReview.__str__] calls [json.dumps], but
    the module [pygerrit2.rest.model] never imports [json].  For every
    review, [review] raises [NameError] while it evaluates [str(review)],
    before any request is dispatched: nothing is serialized and nothing is
    posted. *)
Theorem review_raises_name_error (lib : pylib) (self : client)
  (change_id revision : string) (review : GerritReview.t) :
  GerritReview.__str__ lib review = Raise (NameError "json") /\
  GerritRestAPI.review lib self change_id revision review
    = ([], Raise (NameError "json")).
Proof.
  assert (H : GerritReview.__str__ lib review = Raise (NameError "json")).
  { unfold GerritReview.__str__. reflexivity. }
  split; [exact H |].
  unfold GerritRestAPI.review. rewrite H. reflexivity.
Qed.

Lemma add_comment_skipped (c : dict) (self : GerritReview.t) :
  contains "message" c = true ->
  contains "line" c = false ->
  contains "range" c = false ->
  GerritReview.add_comment (VDict c) self = (self, Ok tt).
Proof.
  intros Hm Hl Hr. unfold GerritReview.add_comment, GerritReview.comment_keys.
  rewrite mem_keys, Hm. cbn [truthy String.eqb negb andb].
  unfold GerritReview.comment_msg. rewrite !mem_keys, Hr, Hl. reflexivity.
Qed.

Lemma add_comments_loop_skip (before after : list pyval) (x : pyval) :
  (forall self, GerritReview.add_comment x self = (self, Ok tt)) ->
  forall self,
    GerritReview.add_comments_loop (before ++ x :: after)%list self =
    GerritReview.add_comments_loop (before ++ after)%list self.
Proof.
  intros Hx. induction before as [|b before IH]; intros self;
    cbn [app GerritReview.add_comments_loop].
  - now rewrite Hx.
  - destruct (GerritReview.add_comment b self) as [self' [[]|e]];
      [apply IH | reflexivity].
Qed.

(** C10: a comment mapping that has a [message] but neither a [line] nor a
    [range] is skipped by [add_comments]: the call returns, the review is
    left exactly as it was, and inside a longer list the comment makes no
    difference to what the others do. *)
Theorem comment_without_position_skipped (c : dict) (self : GerritReview.t) :
  contains "message" c = true ->
  contains "line" c = false ->
  contains "range" c = false ->
  GerritReview.add_comments (VList [VDict c]) self = (self, Ok tt) /\
  forall before after,
    GerritReview.add_comments (VList (before ++ VDict c :: after)%list) self =
    GerritReview.add_comments (VList (before ++ after)%list) self.
Proof.
  intros Hm Hl Hr. split.
  - unfold GerritReview.add_comments.
    cbn [iter_items GerritReview.add_comments_loop].
    now rewrite add_comment_skipped.
  - intros before after. unfold GerritReview.add_comments. cbn [iter_items].
    apply add_comments_loop_skip. intros s. now apply add_comment_skipped.
Qed.

Lemma comment_without_position_skipped_witness :
  let self := {| GerritReview.message := VStr "looks good";
                 GerritReview.labels := VDict [("Code-Review", VInt 1)];
                 GerritReview.comments := VDict [] |} in
  GerritReview.add_comments
    (VList [VDict [("filename", VStr "Makefile"); ("message", VStr "why?")]]) self
  = (self, Ok tt).
Proof.
  cbv zeta.
  apply (comment_without_position_skipped
           [("filename", VStr "Makefile"); ("message", VStr "why?")]);
    reflexivity.
Defined.

Lemma update_single (d : dict) (key : string) (v : pyval) :
  update d [(key, v)] = setitem key v d.
Proof. reflexivity. Qed.

Lemma lists_only_setitem (d : dict) (key : string) (l : list pyval) :
  lists_only d -> lists_only (setitem key (VList l) d).
Proof.
  intros Hd k v. destruct (String.eqb_spec key k) as [->|Hne].
  - rewrite lookup_setitem_same. intros [= <-]. reflexivity.
  - rewrite (lookup_setitem_other _ _ _ _ Hne). apply Hd.
Qed.

Lemma lists_only_nil : lists_only [].
Proof. intros k v H. discriminate H. Qed.

(** Storing a comment appends it to the list of its file. *)
Lemma store_comment_appends (path : string) (msg : pyval) (d : dict) :
  lists_only d ->
  GerritReview.store_comment path msg (VDict d) =
    Ok (VDict (setitem path
                 (VList (match lookup path d with
                         | Some (VList l) => l
                         | _ => []
                         end ++ [msg])%list) d)).
Proof.
  intros Hd. unfold GerritReview.store_comment.
  rewrite mem_keys, update_single. unfold contains.
  destruct (lookup path d) as [v|] eqn:E.
  - pose proof (Hd _ _ E) as Hv. destruct v; try discriminate Hv.
    destruct (truthy (VDict d)) eqn:Ht; [reflexivity |].
    destruct d; [discriminate E | discriminate Ht].
  - destruct (truthy (VDict d)); reflexivity.
Qed.

Lemma add_comment_inv (comment : pyval) (self : GerritReview.t) :
  review_inv self -> review_inv (fst (GerritReview.add_comment comment self)).
Proof.
  intros Hinv. unfold GerritReview.add_comment.
  destruct (GerritReview.comment_keys comment) as [ks|e]; [| exact Hinv].
  destruct (truthy (VStr "filename") && GerritReview.mem "message" ks)%bool;
    [| exact Hinv].
  destruct (GerritReview.comment_msg comment ks) as [[msg|]|e]; try exact Hinv.
  destruct (f <- GerritReview.comment_item "filename" comment ;;
            GerritReview.path_key f) as [path|e]; [| exact Hinv].
  destruct Hinv as [ls [cs [Hl [Hc Hlists]]]].
  rewrite Hc, (store_comment_appends _ _ _ Hlists). cbn [fst].
  exists ls. eexists. cbn. split; [exact Hl |]. split; [reflexivity |].
  now apply lists_only_setitem.
Qed.

Lemma add_comments_loop_inv (items : list pyval) (self : GerritReview.t) :
  review_inv self -> review_inv (fst (GerritReview.add_comments_loop items self)).
Proof.
  revert self. induction items as [|x items IH]; intros self Hinv;
    cbn [GerritReview.add_comments_loop]; [exact Hinv |].
  pose proof (add_comment_inv x self Hinv) as Hx.
  destruct (GerritReview.add_comment x self) as [self' [[]|e]]; cbn [fst] in *.
  - now apply IH.
  - exact Hx.
Qed.

Lemma add_comments_inv (comments : pyval) (self : GerritReview.t) :
  review_inv self -> review_inv (fst (GerritReview.add_comments comments self)).
Proof.
  intros Hinv. unfold GerritReview.add_comments.
  destruct (iter_items comments); [now apply add_comments_loop_inv | exact Hinv].
Qed.

Lemma add_labels_inv (new_labels : pyval) (self : GerritReview.t) :
  review_inv self -> review_inv (fst (GerritReview.add_labels new_labels self)).
Proof.
  intros [ls [cs [Hl [Hc Hlists]]]]. unfold GerritReview.add_labels. rewrite Hl.
  destruct (GerritReview.update_from ls new_labels) as [d' r]. cbn.
  exists d', cs. auto.
Qed.

Lemma init_inv (message labels comments : pyval) (self : GerritReview.t) :
  GerritReview.__init__ message labels comments = Ok self -> review_inv self.
Proof.
  unfold GerritReview.__init__. intros H.
  assert (Hlabels : forall l,
             (if truthy labels
              then if negb (is_dict labels)
                   then Raise (ValueError "labels must be a dict.")
                   else Ok labels
              else Ok (VDict [])) = Ok l -> exists ls, l = VDict ls).
  { intros l. destruct (truthy labels).
    - destruct labels; cbn; try discriminate. intros [= <-]. now eexists.
    - intros [= <-]. now eexists. }
  destruct (if truthy labels then _ else _) as [l|e]; [| discriminate H].
  destruct (Hlabels l eq_refl) as [ls ->]. cbn [bind] in H.
  set (fresh := {| GerritReview.message := if truthy message then message else VStr "";
                   GerritReview.labels := VDict ls;
                   GerritReview.comments := VDict [] |}) in *.
  assert (Hfresh : review_inv fresh).
  { exists ls, []. repeat split. apply lists_only_nil. }
  destruct (truthy comments).
  - destruct (negb (is_list comments)); [discriminate H |].
    pose proof (add_comments_inv comments fresh Hfresh) as Hadd.
    destruct (GerritReview.add_comments comments fresh) as [s [[]|e]];
      [| discriminate H].
    injection H as <-. exact Hadd.
  - injection H as <-. exact Hfresh.
Qed.

Lemma reachable_inv (self : GerritReview.t) : reachable self -> review_inv self.
Proof.
  induction 1 as [m l c self Hinit | m self _ IH | l self _ IH | c self _ IH].
  - exact (init_inv _ _ _ _ Hinit).
  - destruct IH as [ls [cs H]]. exists ls, cs. exact H.
  - now apply add_labels_inv.
  - now apply add_comments_inv.
Qed.

(** Adding one inline comment appends its entry to the list of its file. *)
Lemma add_inline_comment (path : string) (c : dict) (msg : pyval)
  (self : GerritReview.t) :
  review_inv self ->
  inline_comment path c msg ->
  exists self',
    GerritReview.add_comments (VList [VDict c]) self = (self', Ok tt) /\
    review_inv self' /\
    stored_comments path self' = (stored_comments path self ++ [msg])%list.
Proof.
  intros Hinv Hc.
  pose proof (add_comment_inv (VDict c) self Hinv) as Hinv'.
  destruct Hinv as [ls [cs [Hl [Hcs Hlists]]]].
  assert (Hstep : GerritReview.add_comment (VDict c) self =
                  ({| GerritReview.message := GerritReview.message self;
                      GerritReview.labels := GerritReview.labels self;
                      GerritReview.comments :=
                        VDict (setitem path
                                 (VList (stored_comments path self ++ [msg])%list) cs) |},
                   Ok tt)).
  { unfold GerritReview.add_comment, GerritReview.comment_keys,
      GerritReview.comment_msg, GerritReview.comment_item, getitem,
      stored_comments.
    rewrite !mem_keys. unfold contains.
    destruct Hc as [c r m Hf Hm Hr | c l m Hf Hm Hr Hline];
      rewrite ?Hm, ?Hr, ?Hline, ?Hf; cbn [truthy String.eqb negb andb bind
                                            GerritReview.path_key];
      rewrite Hcs, (store_comment_appends _ _ _ Hlists); reflexivity. }
  unfold GerritReview.add_comments. cbn [iter_items GerritReview.add_comments_loop].
  rewrite Hstep in *. eexists. split; [reflexivity |].
  split; [exact Hinv' |].
  unfold stored_comments at 1. cbn [GerritReview.comments].
  now rewrite lookup_setitem_same.
Qed.

(** C8: every review a program can hold (built by the constructor, then
    changed by [set_message], [add_labels] and [add_comments], whether
    they return or raise) has mappings as its labels and comments; and two
    calls of [add_comments], each with a point-line or range comment for
    the same file, both return and leave the two entries, in call order,
    after those already stored for that file. *)
Theorem review_mappings_and_accumulation :
  (forall self, reachable self ->
     is_dict (GerritReview.labels self) = true /\
     is_dict (GerritReview.comments self) = true) /\
  (forall self path c1 c2 msg1 msg2,
     reachable self ->
     inline_comment path c1 msg1 ->
     inline_comment path c2 msg2 ->
     exists self1 self2,
       GerritReview.add_comments (VList [VDict c1]) self = (self1, Ok tt) /\
       GerritReview.add_comments (VList [VDict c2]) self1 = (self2, Ok tt) /\
       stored_comments path self2 =
         (stored_comments path self ++ [msg1; msg2])%list).
Proof.
  split.
  - intros self Hreach.
    destruct (reachable_inv _ Hreach) as [ls [cs [Hl [Hc _]]]].
    now rewrite Hl, Hc.
  - intros self path c1 c2 msg1 msg2 Hreach H1 H2.
    destruct (add_inline_comment path c1 msg1 self (reachable_inv _ Hreach) H1)
      as [self1 [Hadd1 [Hinv1 Hs1]]].
    destruct (add_inline_comment path c2 msg2 self1 Hinv1 H2)
      as [self2 [Hadd2 [_ Hs2]]].
    exists self1, self2. split; [exact Hadd1 |]. split; [exact Hadd2 |].
    rewrite Hs2, Hs1, <- app_assoc. reflexivity.
Qed.

Lemma review_mappings_and_accumulation_witness :
  let c1 := [("filename", VStr "Makefile"); ("line", VInt 10);
             ("message", VStr "tabs, not spaces")] in
  let c2 := [("filename", VStr "Makefile");
             ("range", VDict [("start_line", VInt 0); ("start_character", VInt 1);
                              ("end_line", VInt 0); ("end_character", VInt 5)]);
             ("message", VStr "typo")] in
  exists self self1 self2,
    GerritReview.__init__ (VStr "ok") (VDict [("Verified", VInt 1)]) VNone = Ok self /\
    is_dict (GerritReview.labels self) = true /\
    is_dict (GerritReview.comments self) = true /\
    GerritReview.add_comments (VList [VDict c1]) self = (self1, Ok tt) /\
    GerritReview.add_comments (VList [VDict c2]) self1 = (self2, Ok tt) /\
    stored_comments "Makefile" self2 =
      [VDict [("line", VInt 10); ("message", VStr "tabs, not spaces")];
       VDict [("range", VDict [("start_line", VInt 0); ("start_character", VInt 1);
                               ("end_line", VInt 0); ("end_character", VInt 5)]);
              ("message", VStr "typo")]].
Proof.
  cbv zeta.
  destruct (GerritReview.__init__ (VStr "ok") (VDict [("Verified", VInt 1)]) VNone)
    as [self|e] eqn:Hinit; [| discriminate Hinit].
  pose proof (reach_init _ _ _ _ Hinit) as Hreach.
  destruct review_mappings_and_accumulation as [Hmaps Hacc].
  destruct (Hmaps self Hreach) as [Hl Hc].
  destruct (Hacc self "Makefile" _ _ _ _ Hreach
              (line_comment "Makefile"
                 [("filename", VStr "Makefile"); ("line", VInt 10);
                  ("message", VStr "tabs, not spaces")]
                 (VInt 10) (VStr "tabs, not spaces")
                 eq_refl eq_refl eq_refl eq_refl)
              (range_comment "Makefile"
                 [("filename", VStr "Makefile");
                  ("range", VDict [("start_line", VInt 0); ("start_character", VInt 1);
                                   ("end_line", VInt 0); ("end_character", VInt 5)]);
                  ("message", VStr "typo")]
                 (VDict [("start_line", VInt 0); ("start_character", VInt 1);
                         ("end_line", VInt 0); ("end_character", VInt 5)])
                 (VStr "typo") eq_refl eq_refl eq_refl))
    as [self1 [self2 [H1 [H2 Hstored]]]].
  exists self, self1, self2.
  split; [reflexivity |].
  repeat (split; [assumption |]).
  rewrite Hstored. injection Hinit as <-. reflexivity.
Defined.

(** ** Queries *)







(** * Further properties of the code *)

(** ** Construction and URLs *)

Lemma rstrip_slash_app (s : string) :
  rstrip_by is_slash (s ++ "/") = rstrip_by is_slash s.
Proof.
  induction s as [|c s IH]; [reflexivity |].
  cbn [append rstrip_by]. now rewrite IH.
Qed.

Lemma endswith_slash_added (s : string) :
  endswith (if negb (endswith s "/") then s ++ "/" else s) "/" = true.
Proof.
  destruct (endswith s "/") eqn:E; cbn [negb]; [exact E | apply endswith_app].
Qed.

(** X1: construction fails in one case only, an [auth] that is true in a
    condition and is no [AuthBase] instance, and then with [ValueError];
    in every other case it returns a client whose URL ends with a slash
    and whose default options are [auth], [verify] and the two default
    headers. *)
Theorem init_outcome (url : string) (auth verify : pyval) :
  match GerritRestAPI.__init__ url auth verify with
  | Raise e =>
      truthy auth = true /\ is_AuthBase auth = false /\
      e = ValueError
            "Invalid auth type; must be derived from requests.auth.AuthBase"
  | Ok self =>
      (truthy auth = true -> is_AuthBase auth = true) /\
      endswith (self_url self) "/" = true /\
      self_kwargs self =
        [("auth", auth); ("verify", verify);
         ("headers", VDict [("Accept", VStr "application/json");
                            ("Accept-Encoding", VStr "gzip")])]
  end.
Proof.
  unfold GerritRestAPI.__init__.
  destruct (truthy auth) eqn:Ht.
  - destruct (is_AuthBase auth) eqn:Hb; cbn [negb bind].
    + destruct (negb (endswith _ GERRIT_AUTH_SUFFIX)); cbn [bind self_url self_kwargs];
        (split; [reflexivity |]); (split; [apply endswith_slash_added | reflexivity]).
    + repeat split.
  - destruct (endswith _ GERRIT_AUTH_SUFFIX); cbn [bind self_url self_kwargs];
      (split; [discriminate |]); (split; [apply endswith_slash_added | reflexivity]).
Qed.

(** X2: a slash at the end of the given URL makes no difference to the
    client that is built. *)
Theorem init_ignores_trailing_slash (url : string) (auth verify : pyval) :
  GerritRestAPI.__init__ (url ++ "/") auth verify =
  GerritRestAPI.__init__ url auth verify.
Proof.
  unfold GerritRestAPI.__init__. now rewrite rstrip_slash_app.
Qed.

Lemma rstrip_slash_ends_a (p : string) :
  rstrip_by is_slash (p ++ "/a") = p ++ "/a".
Proof. apply rstrip_slash_id. apply auth_suffix_no_slash. Qed.

(** X3: with an auth handler the stored URL ends with [/a/] whatever URL
    is given, and building a client from the stored URL gives the same
    client again. *)
Theorem init_with_auth_suffix (url handler : string) (verify : pyval) :
  exists self,
    GerritRestAPI.__init__ url (VAuth handler) verify = Ok self /\
    endswith (self_url self) "/a/" = true /\
    GerritRestAPI.__init__ (self_url self) (VAuth handler) verify = Ok self.
Proof.
  assert (Hw : exists w, GerritRestAPI.__init__ url (VAuth handler) verify =
                 Ok {| self_url := (w ++ "/a") ++ "/";
                       self_kwargs :=
                         [("auth", VAuth handler); ("verify", verify);
                          ("headers", VDict default_headers)] |}).
  { unfold GerritRestAPI.__init__. cbn [truthy is_AuthBase negb].
    destruct (endswith (rstrip_by is_slash url) GERRIT_AUTH_SUFFIX) eqn:E;
      cbn [negb bind].
    - destruct (endswith_inv _ _ E) as [w Hw]. exists w. rewrite Hw.
      change GERRIT_AUTH_SUFFIX with "/a". now rewrite auth_suffix_no_slash.
    - exists (rstrip_by is_slash url). change GERRIT_AUTH_SUFFIX with "/a".
      now rewrite auth_suffix_no_slash. }
  destruct Hw as [w Hw]. eexists. split; [exact Hw |]. cbn [self_url]. split.
  - rewrite append_assoc. apply endswith_app.
  - unfold GerritRestAPI.__init__. cbn [truthy is_AuthBase negb].
    rewrite rstrip_slash_app, rstrip_slash_ends_a.
    change GERRIT_AUTH_SUFFIX with "/a". rewrite endswith_app. cbn [negb bind].
    now rewrite auth_suffix_no_slash.
Qed.

Lemma lstrip_slash_head (s : string) :
  startswith (lstrip_by is_slash s) "/" = false.
Proof.
  induction s as [|c s IH]; [reflexivity |]. cbn [lstrip_by].
  unfold is_slash at 1. destruct (Ascii.eqb_spec c "/") as [->|Hc]; [exact IH |].
  cbn [startswith]. destruct (Ascii.eqb_spec "/" c) as [<-|_];
    [now contradiction Hc | reflexivity].
Qed.

Lemma lstrip_slash_id (s : string) :
  startswith s "/" = false -> lstrip_by is_slash s = s.
Proof.
  destruct s as [|c s]; [reflexivity |]. cbn [startswith lstrip_by].
  unfold is_slash. rewrite Ascii.eqb_sym. rewrite andb_true_r.
  now intros ->.
Qed.

(** X4: [make_url] puts the endpoint, without its leading slashes, after
    the base URL: a slash in front of the endpoint makes no difference, the
    part after the base never starts with a slash, and an endpoint without
    a leading slash is appended as it is. *)
Theorem make_url_leading_slash (self : client) (endpoint : string) :
  GerritRestAPI.make_url self ("/" ++ endpoint) =
    GerritRestAPI.make_url self endpoint /\
  (exists rest,
     GerritRestAPI.make_url self endpoint = self_url self ++ rest /\
     startswith rest "/" = false) /\
  (startswith endpoint "/" = false ->
   GerritRestAPI.make_url self endpoint = self_url self ++ endpoint).
Proof.
  unfold GerritRestAPI.make_url. split; [reflexivity |]. split.
  - eexists. split; [reflexivity | apply lstrip_slash_head].
  - intros H. now rewrite lstrip_slash_id.
Qed.

(** ** More on the response decoder *)

Lemma lstrip_blank_app (w s : string) :
  blank w = true -> lstrip (w ++ s) = lstrip s.
Proof.
  unfold lstrip. induction w as [|c w IH]; [reflexivity |].
  cbn [blank append lstrip_by]. intros H. apply andb_true_iff in H.
  destruct H as [Hc Hw]. rewrite Hc. now apply IH.
Qed.

Lemma rstrip_blank (w : string) : blank w = true -> rstrip w = "".
Proof.
  unfold rstrip. induction w as [|c w IH]; [reflexivity |].
  cbn [blank rstrip_by]. intros H. apply andb_true_iff in H.
  destruct H as [Hc Hw]. now rewrite (IH Hw), Hc.
Qed.

Lemma rstrip_app_blank (s w : string) :
  blank w = true -> rstrip (s ++ w) = rstrip s.
Proof.
  intros Hw. unfold rstrip. induction s as [|c s IH].
  - cbn [append]. now apply rstrip_blank.
  - cbn [append rstrip_by]. now rewrite IH.
Qed.

Lemma strip_surrounded (w1 w2 s : string) :
  blank w1 = true -> blank w2 = true -> strip (w1 ++ s ++ w2) = strip s.
Proof.
  intros H1 H2. unfold strip.
  rewrite <- !rstrip_lstrip, (lstrip_blank_app _ _ H1).
  rewrite !rstrip_lstrip. now rewrite (rstrip_app_blank _ _ H2).
Qed.

(** X5: white space before and after the body makes no difference to what
    the decoder returns or raises. *)
Theorem decode_ignores_outer_space (lib : pylib) (r : response)
  (w1 w2 body : string) :
  blank w1 = true ->
  blank w2 = true ->
  _decode_response lib (with_content r (w1 ++ body ++ w2)) =
  _decode_response lib (with_content r body).
Proof.
  intros H1 H2. unfold _decode_response, with_content, declared_encoding.
  cbn [content encoding headers]. now rewrite (strip_surrounded _ _ _ H1 H2).
Qed.

Lemma decode_ignores_outer_space_witness :
  let r := json_response 200 "" in
  let sp := " " ++ LF in
  _decode_response (example_lib r)
    (with_content r (sp ++ (GERRIT_MAGIC_JSON_PREFIX ++ "true") ++ sp)) =
  _decode_response (example_lib r)
    (with_content r (GERRIT_MAGIC_JSON_PREFIX ++ "true")).
Proof.
  cbv zeta.
  apply (decode_ignores_outer_space (example_lib (json_response 200 ""))
           (json_response 200 "") (" " ++ LF) (" " ++ LF)
           (GERRIT_MAGIC_JSON_PREFIX ++ "true")); reflexivity.
Defined.

(** X6: a response whose status is below 400 or from 600 on and whose
    content type is not [application/json] decodes to its stripped text, a
    magic prefix included when there is one; [json.loads] has no part in
    it. *)
Theorem decode_other_content_type (lib : pylib) (r : response) (text : string) :
  status_code r < 400 \/ 600 <= status_code r ->
  decoded_text lib r = Ok text ->
  (split_first ";" (header_get "content-type" (headers r) "")
     =? "application/json")%string = false ->
  forall loads,
    _decode_response (with_json_loads lib loads) r = Ok (VStr text).
Proof.
  intros Hstatus Htext Htype loads. unfold _decode_response.
  unfold decoded_text in Htext.
  change (bytes_decode (with_json_loads lib loads)) with (bytes_decode lib).
  assert (Hok : raise_for_status r = Ok tt).
  { unfold raise_for_status.
    destruct (400 <=? status_code r) eqn:E1; [| reflexivity].
    destruct (status_code r <? 600) eqn:E2; [| reflexivity].
    apply Z.leb_le in E1. apply Z.ltb_lt in E2. lia. }
  destruct (declared_encoding r); rewrite ?Htext; cbn [bind];
    rewrite Hok; cbn [bind]; rewrite Htype; reflexivity.
Qed.

Lemma decode_other_content_type_witness :
  let r := {| status_code := 302;
              headers := [("CONTENT-TYPE", "text/plain; charset=us-ascii")];
              content := GERRIT_MAGIC_JSON_PREFIX ++ "moved" ++ LF;
              encoding := Some "ascii" |} in
  _decode_response
    (with_json_loads (example_lib (json_response 200 "")) (fun _ => Ok VNone)) r
    = Ok (VStr (GERRIT_MAGIC_JSON_PREFIX ++ "moved")).
Proof.
  cbv zeta.
  apply (decode_other_content_type
           (example_lib (json_response 200 ""))
           {| status_code := 302;
              headers := [("CONTENT-TYPE", "text/plain; charset=us-ascii")];
              content := GERRIT_MAGIC_JSON_PREFIX ++ "moved" ++ LF;
              encoding := Some "ascii" |}).
  - left. simpl. lia.
  - reflexivity.
  - reflexivity.
Defined.




(** ** More on the dict merger *)

Lemma merge_key_setitem (result : dict) (key : string) (v : pyval) :
  merge_key result key v =
    setitem key (merged_value (lookup key result) v) result.
Proof.
  unfold merge_key, merged_value.
  destruct (lookup key result) as [[]|]; destruct v; reflexivity.
Qed.

Lemma keys_setitem_present (key : string) (v : pyval) (d : dict) :
  contains key d = true -> keys (setitem key v d) = keys d.
Proof.
  unfold contains. induction d as [|[k w] d IH]; cbn [lookup setitem keys map fst].
  - discriminate.
  - destruct (k =? key)%string; [reflexivity |].
    intros H. cbn [map fst]. f_equal. now apply IH.
Qed.

Lemma setitem_absent (key : string) (v : pyval) (d : dict) :
  lookup key d = None -> setitem key v d = (d ++ [(key, v)])%list.
Proof.
  induction d as [|[k w] d IH]; cbn [lookup setitem app]; [reflexivity |].
  destruct (k =? key)%string; [discriminate |].
  intros H. now rewrite IH.
Qed.

Lemma setitem_same (key : string) (v : pyval) (d : dict) :
  lookup key d = Some v -> setitem key v d = d.
Proof.
  induction d as [|[k w] d IH]; cbn [lookup setitem]; [discriminate |].
  destruct (k =? key)%string.
  - now intros [= ->].
  - intros H. now rewrite IH.
Qed.

Lemma contains_setitem (key key' : string) (v : pyval) (d : dict) :
  key <> key' -> contains key' (setitem key v d) = contains key' d.
Proof. intros H. unfold contains. now rewrite lookup_setitem_other. Qed.

(** X8: merging never removes or reorders a key of the base: the keys of
    the result are those of the base, in their order, followed by the keys
    of the overlay that the base did not have, in the overlay's order. *)
Theorem merge_dict_keeps_base_keys (overrides result : dict) :
  NoDup (keys overrides) ->
  keys (_merge_dict result overrides) =
    (keys result ++
     filter (fun k => negb (contains k result)) (keys overrides))%list.
Proof.
  revert result. induction overrides as [|[k v] rest IH]; intros result Hnd.
  - cbn. now rewrite app_nil_r.
  - rewrite merge_dict_cons, merge_key_setitem.
    inversion Hnd as [|? ? Hk Hrest]; subst. rewrite (IH _ Hrest).
    cbn [keys map fst filter].
    assert (Hfilter :
              filter (fun k0 => negb (contains k0 (setitem k (merged_value (lookup k result) v) result)))
                     (map fst rest) =
              filter (fun k0 => negb (contains k0 result)) (map fst rest)).
    { apply filter_ext_in. intros k' Hin. rewrite contains_setitem; [reflexivity |].
      intros ->. now apply Hk. }
    fold (keys rest) in *. unfold keys in Hfilter. unfold keys at 2 4.
    rewrite Hfilter.
    destruct (contains k result) eqn:Hc; cbn [negb].
    + now rewrite (keys_setitem_present _ _ _ Hc).
    + unfold contains in Hc. destruct (lookup k result) eqn:Hl; [discriminate |].
      rewrite (setitem_absent _ _ _ Hl). unfold keys.
      rewrite map_app, <- app_assoc. reflexivity.
Qed.

Lemma merge_dict_keeps_base_keys_witness :
  keys (_merge_dict
          [("auth", VNone); ("verify", VBool true); ("headers", VDict default_headers)]
          [("timeout", VInt 5); ("verify", VBool false)])
  = ["auth"; "verify"; "headers"; "timeout"].
Proof.
  apply (merge_dict_keeps_base_keys
           [("timeout", VInt 5); ("verify", VBool false)]
           [("auth", VNone); ("verify", VBool true); ("headers", VDict default_headers)]).
  repeat constructor; simpl; intuition discriminate.
Defined.

Lemma lookup_app_absent (key : string) (d e : dict) :
  lookup key d = None -> lookup key (d ++ e)%list = lookup key e.
Proof.
  induction d as [|[k w] d IH]; cbn [lookup app]; [reflexivity |].
  destruct (k =? key)%string; [discriminate | exact IH].
Qed.

(** X9: when no key of the overlay is in the base, merging appends the
    overlay to the base unchanged; so merging into an empty dictionary
    returns the overlay itself. *)
Theorem merge_dict_disjoint (result overrides : dict) :
  NoDup (keys overrides) ->
  (forall k, In k (keys overrides) -> lookup k result = None) ->
  _merge_dict result overrides = (result ++ overrides)%list /\
  _merge_dict [] overrides = overrides.
Proof.
  intros Hnd Hdis.
  assert (H : forall o r, NoDup (keys o) ->
               (forall k, In k (keys o) -> lookup k r = None) ->
               _merge_dict r o = (r ++ o)%list).
  { clear. induction o as [|[k v] rest IH]; intros r Hnd Hdis.
    - cbn. now rewrite app_nil_r.
    - rewrite merge_dict_cons, merge_key_setitem.
      inversion Hnd as [|? ? Hk Hrest]; subst.
      rewrite (Hdis k (or_introl eq_refl)).
      assert (Hv : merged_value None v = v) by (destruct v; reflexivity).
      rewrite Hv, (setitem_absent _ _ _ (Hdis k (or_introl eq_refl))).
      rewrite IH; [now rewrite <- app_assoc | exact Hrest |].
      intros k' Hin. rewrite lookup_app_absent.
      + cbn [lookup]. destruct (String.eqb_spec k k') as [->|_];
          [now contradiction Hk | reflexivity].
      + apply Hdis. now right. }
  split; [now apply H |]. now apply (H overrides []).
Qed.

Lemma merge_dict_disjoint_witness :
  _merge_dict [("auth", VNone); ("verify", VBool true)]
              [("timeout", VInt 5); ("stream", VBool false)]
  = [("auth", VNone); ("verify", VBool true);
     ("timeout", VInt 5); ("stream", VBool false)].
Proof.
  apply (merge_dict_disjoint [("auth", VNone); ("verify", VBool true)]
           [("timeout", VInt 5); ("stream", VBool false)]).
  - repeat constructor; simpl; intuition discriminate.
  - intros k [<- | [<- | []]]; reflexivity.
Defined.

Lemma lookup_in (key : string) (v : pyval) (d : dict) :
  NoDup (keys d) -> In (key, v) d -> lookup key d = Some v.
Proof.
  induction d as [|[k w] d IH]; cbn [keys map fst lookup]; intros Hnd Hin.
  - destruct Hin.
  - inversion Hnd as [|? ? Hk Hrest]; subst.
    destruct Hin as [[= -> ->] | Hin].
    + now rewrite String.eqb_refl.
    + destruct (String.eqb_spec k key) as [->|_]; [| now apply IH].
      exfalso. apply Hk. change key with (fst (key, v)). now apply in_map.
Qed.

(** Merging leaves the base as it is when it already holds, under every
    key of the overlay, what the merge would put there. *)
Lemma merge_dict_fixed (overrides result : dict) :
  (forall k v, In (k, v) overrides ->
     exists w, lookup k result = Some w /\ merged_value (Some w) v = w) ->
  _merge_dict result overrides = result.
Proof.
  induction overrides as [|[k v] rest IH]; intros H; [reflexivity |].
  rewrite merge_dict_cons, merge_key_setitem.
  destruct (H k v (or_introl eq_refl)) as [w [Hl Hm]].
  rewrite Hl, Hm, (setitem_same _ _ _ Hl).
  apply IH. intros k' v' Hin. apply H. now right.
Qed.

Lemma depth_in (k : string) (v : pyval) (d : dict) :
  In (k, v) d -> (depth v < depth (VDict d))%nat.
Proof.
  cbn [depth]. induction d as [|[k' w] d IH]; intros Hin; [destruct Hin |].
  cbn [fold_right snd]. destruct Hin as [[= -> ->] | Hin].
  - lia.
  - specialize (IH Hin). lia.
Qed.

Lemma distinct_keys_in (k : string) (v : pyval) (d : dict) :
  distinct_keys (VDict d) -> In (k, v) d -> distinct_keys v.
Proof.
  cbn [distinct_keys]. intros [_ Hall].
  induction d as [|[k' w] d IH]; intros Hin; [destruct Hin |].
  cbn [fold_right snd] in Hall. destruct Hall as [Hw Hrest].
  destruct Hin as [[= -> ->] | Hin]; [exact Hw | now apply IH].
Qed.

Lemma merge_dict_twice (n : nat) :
  forall o, (depth (VDict o) <= n)%nat -> distinct_keys (VDict o) ->
    _merge_dict o o = o /\
    forall r, _merge_dict (_merge_dict r o) o = _merge_dict r o.
Proof.
  induction n as [|n IH]; intros o Hn Hwf; [cbn [depth] in Hn; lia |].
  assert (Hnd : NoDup (keys o)) by (destruct Hwf as [H _]; exact H).
  assert (Hsub : forall k d, In (k, VDict d) o ->
                   _merge_dict d d = d /\
                   forall r, _merge_dict (_merge_dict r d) d = _merge_dict r d).
  { intros k d Hin. apply IH.
    - pose proof (depth_in _ _ _ Hin). lia.
    - exact (distinct_keys_in _ _ _ Hwf Hin). }
  split.
  - apply merge_dict_fixed. intros k v Hin. exists v.
    split; [now apply lookup_in |].
    destruct v; try reflexivity. cbn [merged_value].
    now rewrite (proj1 (Hsub _ _ Hin)).
  - intros r. apply merge_dict_fixed. intros k v Hin.
    rewrite (merge_dict_lookup _ _ _ Hnd), (lookup_in _ _ _ Hnd Hin).
    eexists. split; [reflexivity |].
    destruct v as [| | | | |d| |];
      try (destruct (lookup k r) as [[]|]; reflexivity).
    destruct (Hsub _ _ Hin) as [Hself Htwice].
    destruct (lookup k r) as [[]|]; cbn [merged_value];
      rewrite ?Hself, ?Htwice; reflexivity.
Qed.

(** X10: for an overlay whose keys are distinct at every level, merging it
    a second time changes nothing, and merging it into itself returns
    it. *)
Theorem merge_dict_idempotent (result overrides : dict) :
  distinct_keys (VDict overrides) ->
  _merge_dict (_merge_dict result overrides) overrides
    = _merge_dict result overrides /\
  _merge_dict overrides overrides = overrides.
Proof.
  intros Hwf.
  destruct (merge_dict_twice (depth (VDict overrides)) overrides (le_n _) Hwf)
    as [Hself Htwice].
  split; [apply Htwice | exact Hself].
Qed.

Lemma merge_dict_idempotent_witness :
  let base := [("headers", VDict default_headers); ("verify", VBool true)] in
  let over := [("headers", VDict [("X-Trace", VStr "1")]); ("verify", VBool false)] in
  _merge_dict (_merge_dict base over) over = _merge_dict base over /\
  _merge_dict over over = over.
Proof.
  cbv zeta.
  apply (merge_dict_idempotent
           [("headers", VDict default_headers); ("verify", VBool true)]
           [("headers", VDict [("X-Trace", VStr "1")]); ("verify", VBool false)]).
  cbn. repeat split; repeat constructor; simpl; intuition discriminate.
Defined.

(** ** More on the verbs *)

Lemma outcome_exchange (lib : pylib) (m : method) (u : string) (opts : dict)
  (return_response : bool) :
  outcome (response <~ session_call lib m u opts ;;
           decoded_response <~ io_lift (_decode_response lib response) ;;
           io_ret (GerritRestAPI.finish return_response decoded_response response))
  = (r <- session_request lib {| verb := m; target := u; options := opts |} ;;
     decoded <- _decode_response lib r ;;
     Ok (GerritRestAPI.finish return_response decoded r)).
Proof.
  unfold outcome, session_call, io_bind, io_lift, io_ret.
  destruct (session_request lib _) as [r|e]; [| reflexivity].
  cbn [bind]. destruct (_decode_response lib r); reflexivity.
Qed.

(** X11: each of the four verbs dispatches exactly one request, to the URL
    made from the endpoint, whatever comes of it.  An error of the
    transport is raised as it is and nothing is decoded; an error of the
    decoder is raised as it is; otherwise the decoded body is returned,
    together with the response when [return_response] is true. *)
Theorem verb_exchange (lib : pylib) (self : client) (endpoint : string)
  (return_response : bool) (kwargs : dict) :
  let holds (m : method) (call : io returned) :=
    exists rq,
      sent call = [rq] /\
      verb rq = m /\
      target rq = GerritRestAPI.make_url self endpoint /\
      (forall e, session_request lib rq = Raise e -> outcome call = Raise e) /\
      (forall r e, session_request lib rq = Ok r ->
                   _decode_response lib r = Raise e -> outcome call = Raise e) /\
      (forall r v, session_request lib rq = Ok r ->
                   _decode_response lib r = Ok v ->
                   outcome call =
                     Ok (if return_response then DecodedWithResponse v r
                         else Decoded v)) in
  holds GET (GerritRestAPI.get lib self endpoint return_response kwargs) /\
  holds PUT (GerritRestAPI.put lib self endpoint return_response kwargs) /\
  holds POST (GerritRestAPI.post lib self endpoint return_response kwargs) /\
  holds DELETE (GerritRestAPI.delete lib self endpoint return_response kwargs).
Proof.
  cbv zeta.
  assert (H : forall m opts,
             let call :=
               (response <~ session_call lib m (GerritRestAPI.make_url self endpoint) opts ;;
                decoded_response <~ io_lift (_decode_response lib response) ;;
                io_ret (GerritRestAPI.finish return_response decoded_response response)) in
             exists rq,
               sent call = [rq] /\ verb rq = m /\
               target rq = GerritRestAPI.make_url self endpoint /\
               (forall e, session_request lib rq = Raise e -> outcome call = Raise e) /\
               (forall r e, session_request lib rq = Ok r ->
                            _decode_response lib r = Raise e -> outcome call = Raise e) /\
               (forall r v, session_request lib rq = Ok r ->
                            _decode_response lib r = Ok v ->
                            outcome call =
                              Ok (if return_response then DecodedWithResponse v r
                                  else Decoded v))).
  { intros m opts call. eexists. split; [apply sent_exchange |].
    cbn [verb target]. split; [reflexivity |]. split; [reflexivity |].
    unfold call. rewrite outcome_exchange. repeat split.
    - intros e ->. reflexivity.
    - intros r e -> Hd. cbn [bind]. now rewrite Hd.
    - intros r v -> Hd. cbn [bind]. now rewrite Hd. }
  repeat split; apply H.
Qed.

(** X12: [put] and [post] add no content type for a body that is no
    mapping, such as the JSON string that [review] passes as [data]: on a
    client as constructed, with no [json] and no [headers] option, the
    headers dispatched are the two defaults and nothing else. *)
Theorem put_post_plain_body (lib : pylib) (url : string) (auth verify : pyval)
  (self : client) (endpoint : string) (return_response : bool) (kwargs : dict) :
  GerritRestAPI.__init__ url auth verify = Ok self ->
  NoDup (keys kwargs) ->
  (forall d, lookup "data" kwargs <> Some (VDict d)) ->
  contains "json" kwargs = false ->
  lookup "headers" kwargs = None ->
  forall call,
    In call [GerritRestAPI.put; GerritRestAPI.post] ->
    exists rq,
      sent (call lib self endpoint return_response kwargs) = [rq] /\
      lookup "headers" (options rq) =
        Some (VDict [("Accept", VStr "application/json");
                     ("Accept-Encoding", VStr "gzip")]).
Proof.
  intros Hinit Hnd Hdata Hjson Hheaders call Hcall.
  apply init_kwargs in Hinit.
  assert (Hcond : ((match lookup "data" kwargs with
                    | Some v => is_dict v | None => false end)
                   || contains "json" kwargs)%bool = false).
  { rewrite Hjson, orb_false_r.
    destruct (lookup "data" kwargs) as [[]|]; try reflexivity.
    now contradiction (Hdata d). }
  pose proof (fresh_write_headers false self auth verify kwargs Hinit Hnd) as Hh.
  rewrite Hheaders in Hh. cbv zeta in Hh.
  destruct Hcall as [<- | [<- | []]]; eexists.
  - rewrite put_sent. split; [reflexivity |]. cbn [options].
    rewrite Hcond. exact Hh.
  - rewrite post_sent. split; [reflexivity |]. cbn [options].
    rewrite Hcond. exact Hh.
Qed.

Lemma put_post_plain_body_witness :
  exists self rq,
    GerritRestAPI.__init__ "http://review.example.com" (VAuth "basic") (VBool true)
      = Ok self /\
    sent (GerritRestAPI.post (example_lib (json_response 200 "null")) self
            "changes/1/revisions/2/review" false [("data", VStr "{}")]) = [rq] /\
    lookup "headers" (options rq) =
      Some (VDict [("Accept", VStr "application/json");
                   ("Accept-Encoding", VStr "gzip")]).
Proof.
  destruct (GerritRestAPI.__init__ "http://review.example.com" (VAuth "basic")
              (VBool true)) as [self|e] eqn:Hinit; [| discriminate Hinit].
  assert (Hnd : NoDup (keys [("data", VStr "{}")])).
  { repeat constructor. simpl. tauto. }
  assert (Hdata : forall d, lookup "data" [("data", VStr "{}")] <> Some (VDict d)).
  { intros d. discriminate. }
  destruct (put_post_plain_body (example_lib (json_response 200 "null"))
              "http://review.example.com" (VAuth "basic") (VBool true) self
              "changes/1/revisions/2/review" false _ Hinit Hnd Hdata
              eq_refl eq_refl GerritRestAPI.post (or_intror (or_introl eq_refl)))
    as [rq [Hsent Hh]].
  exists self, rq. split; [reflexivity |]. split; assumption.
Defined.

(** X13: [delete] adds the JSON content type as soon as a [data] option
    is passed, whatever its type: on a client as constructed and with no
    [headers] option, the headers dispatched are the content type and the
    two defaults. *)
Theorem delete_any_data (lib : pylib) (url : string) (auth verify : pyval)
  (self : client) (endpoint : string) (return_response : bool) (kwargs : dict) :
  GerritRestAPI.__init__ url auth verify = Ok self ->
  NoDup (keys kwargs) ->
  contains "data" kwargs = true ->
  lookup "headers" kwargs = None ->
  exists rq,
    sent (GerritRestAPI.delete lib self endpoint return_response kwargs) = [rq] /\
    lookup "headers" (options rq) =
      Some (VDict [("Content-Type", VStr "application/json;charset=UTF-8");
                   ("Accept", VStr "application/json");
                   ("Accept-Encoding", VStr "gzip")]).
Proof.
  intros Hinit Hnd Hdata Hheaders. apply init_kwargs in Hinit.
  pose proof (fresh_write_headers true self auth verify kwargs Hinit Hnd) as Hh.
  rewrite Hheaders in Hh. cbv zeta in Hh.
  eexists. rewrite delete_sent. split; [reflexivity |]. cbn [options].
  rewrite Hdata. exact Hh.
Qed.

Lemma delete_any_data_witness :
  exists self rq,
    GerritRestAPI.__init__ "http://review.example.com" (VAuth "basic") (VBool true)
      = Ok self /\
    sent (GerritRestAPI.delete (example_lib (json_response 200 "null")) self
            "changes/1/edit/README" false [("data", VStr "plain text")]) = [rq] /\
    lookup "headers" (options rq) =
      Some (VDict [("Content-Type", VStr "application/json;charset=UTF-8");
                   ("Accept", VStr "application/json");
                   ("Accept-Encoding", VStr "gzip")]).
Proof.
  destruct (GerritRestAPI.__init__ "http://review.example.com" (VAuth "basic")
              (VBool true)) as [self|e] eqn:Hinit; [| discriminate Hinit].
  assert (Hnd : NoDup (keys [("data", VStr "plain text")])).
  { repeat constructor. simpl. tauto. }
  destruct (delete_any_data (example_lib (json_response 200 "null"))
              "http://review.example.com" (VAuth "basic") (VBool true) self
              "changes/1/edit/README" false _ Hinit Hnd eq_refl eq_refl)
    as [rq [Hsent Hh]].
  exists self, rq. split; [reflexivity |]. split; assumption.
Defined.

(** ** More on reviews *)

(** X14: the constructor of a review raises [ValueError] for labels that
    are true in a condition and no mapping, and, when the labels pass, for
    comments that are true in a condition and no list; labels and comments
    that are false in a condition ([None], an empty container, zero) give
    empty mappings, and a message that is false gives the empty string. *)
Theorem review_init_outcome (message labels comments : pyval) :
  (truthy labels = true -> is_dict labels = false ->
   GerritReview.__init__ message labels comments
     = Raise (ValueError "labels must be a dict.")) /\
  (truthy labels = false \/ is_dict labels = true ->
   truthy comments = true -> is_list comments = false ->
   GerritReview.__init__ message labels comments
     = Raise (ValueError "comments must be a list.")) /\
  (truthy labels = false \/ is_dict labels = true ->
   truthy comments = false ->
   GerritReview.__init__ message labels comments
     = Ok {| GerritReview.message := if truthy message then message else VStr "";
             GerritReview.labels := if truthy labels then labels else VDict [];
             GerritReview.comments := VDict [] |}).
Proof.
  unfold GerritReview.__init__. split; [| split].
  - intros Ht Hd. now rewrite Ht, Hd.
  - intros Hl Ht Hc. rewrite Ht, Hc.
    destruct (truthy labels); [| reflexivity].
    destruct Hl as [Hl | Hl]; [discriminate Hl | now rewrite Hl].
  - intros Hl Ht. rewrite Ht.
    destruct (truthy labels); [| reflexivity].
    destruct Hl as [Hl | Hl]; [discriminate Hl | now rewrite Hl].
Qed.

Lemma add_comments_loop_app (before rest : list pyval) (self : GerritReview.t) :
  GerritReview.add_comments_loop (before ++ rest)%list self =
    match GerritReview.add_comments_loop before self with
    | (self', Ok _) => GerritReview.add_comments_loop rest self'
    | (self', Raise e) => (self', Raise e)
    end.
Proof.
  revert self. induction before as [|b before IH]; intros self;
    cbn [app GerritReview.add_comments_loop]; [reflexivity |].
  destruct (GerritReview.add_comment b self) as [self' [[]|e]];
    [apply IH | reflexivity].
Qed.

(** X15: a comment mapping without a [message] key is dropped without an
    error, whatever else it holds: the other comments of the list are
    handled as if it were not there. *)
Theorem comment_without_message_skipped (c : dict) (self : GerritReview.t)
  (before after : list pyval) :
  contains "message" c = false ->
  GerritReview.add_comments (VList (before ++ VDict c :: after)%list) self =
  GerritReview.add_comments (VList (before ++ after)%list) self.
Proof.
  intros Hm. unfold GerritReview.add_comments. cbn [iter_items].
  apply add_comments_loop_skip. intros s.
  unfold GerritReview.add_comment, GerritReview.comment_keys.
  rewrite mem_keys, Hm. now rewrite andb_false_r.
Qed.

Lemma comment_without_message_skipped_witness :
  let self := {| GerritReview.message := VStr "";
                 GerritReview.labels := VDict [];
                 GerritReview.comments := VDict [] |} in
  GerritReview.add_comments
    (VList [VDict [("filename", VStr "Makefile"); ("line", VInt 3)]]) self
  = GerritReview.add_comments (VList []) self.
Proof.
  cbv zeta.
  apply (comment_without_message_skipped
           [("filename", VStr "Makefile"); ("line", VInt 3)] _ [] []).
  reflexivity.
Defined.

(** X16: a comment that has a [message] and a [range] or a [line] but no
    [filename] raises [KeyError] for [filename]: the test
    ['filename' and 'message' in keys] looks for the message only.  The
    comments before it in the list are stored, the ones after it are not
    looked at. *)
Theorem comment_without_filename_raises (c : dict) (self self' : GerritReview.t)
  (before after : list pyval) :
  contains "message" c = true ->
  contains "range" c = true \/ contains "line" c = true ->
  contains "filename" c = false ->
  GerritReview.add_comments (VList before) self = (self', Ok tt) ->
  GerritReview.add_comments (VList (before ++ VDict c :: after)%list) self =
    (self', Raise (KeyError "filename")).
Proof.
  intros Hm Hpos Hf Hbefore. unfold GerritReview.add_comments in *.
  cbn [iter_items] in *. rewrite add_comments_loop_app, Hbefore.
  cbn [GerritReview.add_comments_loop].
  assert (Hstep : GerritReview.add_comment (VDict c) self' =
                  (self', Raise (KeyError "filename"))).
  { unfold GerritReview.add_comment, GerritReview.comment_keys,
      GerritReview.comment_msg, GerritReview.comment_item, getitem.
    rewrite !mem_keys, Hm. cbn [truthy String.eqb negb andb].
    unfold contains in *.
    destruct (lookup "message" c) as [m|]; [| discriminate Hm].
    destruct (lookup "filename" c); [discriminate Hf |].
    destruct (lookup "range" c) as [r|]; cbn [bind]; [reflexivity |].
    destruct (lookup "line" c) as [l|]; cbn [bind]; [reflexivity |].
    destruct Hpos as [H | H]; discriminate H. }
  now rewrite Hstep.
Qed.

Lemma comment_without_filename_raises_witness :
  let self := {| GerritReview.message := VStr "";
                 GerritReview.labels := VDict [];
                 GerritReview.comments := VDict [] |} in
  let first := VDict [("filename", VStr "Makefile"); ("line", VInt 3);
                      ("message", VStr "tab")] in
  GerritReview.add_comments
    (VList [first; VDict [("line", VInt 4); ("message", VStr "lost")]; first]) self
  = ({| GerritReview.message := VStr "";
        GerritReview.labels := VDict [];
        GerritReview.comments :=
          VDict [("Makefile",
                  VList [VDict [("line", VInt 3); ("message", VStr "tab")]])] |},
     Raise (KeyError "filename")).
Proof.
  cbv zeta.
  apply (comment_without_filename_raises
           [("line", VInt 4); ("message", VStr "lost")] _ _
           [VDict [("filename", VStr "Makefile"); ("line", VInt 3);
                   ("message", VStr "tab")]]
           [VDict [("filename", VStr "Makefile"); ("line", VInt 3);
                   ("message", VStr "tab")]]).
  - reflexivity.
  - right. reflexivity.
  - reflexivity.
  - reflexivity.
Defined.

Lemma add_comment_frame (comment : pyval) (self : GerritReview.t) :
  GerritReview.message (fst (GerritReview.add_comment comment self))
    = GerritReview.message self /\
  GerritReview.labels (fst (GerritReview.add_comment comment self))
    = GerritReview.labels self.
Proof.
  unfold GerritReview.add_comment.
  destruct (GerritReview.comment_keys comment) as [ks|e]; [| now split].
  destruct (truthy (VStr "filename") && GerritReview.mem "message" ks)%bool;
    [| now split].
  destruct (GerritReview.comment_msg comment ks) as [[msg|]|e]; try now split.
  destruct (f <- GerritReview.comment_item "filename" comment ;;
            GerritReview.path_key f) as [path|e]; [| now split].
  destruct (GerritReview.store_comment path msg (GerritReview.comments self));
    now split.
Qed.

(** X17: [add_comments] never touches the message or the labels of the
    review, whatever it is given and whether it returns or raises. *)
Theorem add_comments_keeps_message_and_labels (comments : pyval)
  (self : GerritReview.t) :
  GerritReview.message (fst (GerritReview.add_comments comments self))
    = GerritReview.message self /\
  GerritReview.labels (fst (GerritReview.add_comments comments self))
    = GerritReview.labels self.
Proof.
  unfold GerritReview.add_comments.
  destruct (iter_items comments) as [items|e]; [| now split].
  revert self. induction items as [|x items IH]; intros self;
    cbn [GerritReview.add_comments_loop]; [now split |].
  pose proof (add_comment_frame x self) as [Hm Hl].
  destruct (GerritReview.add_comment x self) as [self' [[]|e]]; cbn [fst] in *.
  - destruct (IH self') as [Hm' Hl']. now rewrite Hm', Hl'.
  - now split.
Qed.

(** X18: an inline comment for one file leaves the comments stored for
    every other file as they were. *)
Theorem add_comment_other_files (path other : string) (c : dict) (msg : pyval)
  (self : GerritReview.t) :
  reachable self ->
  inline_comment path c msg ->
  other <> path ->
  stored_comments other (fst (GerritReview.add_comments (VList [VDict c]) self))
    = stored_comments other self.
Proof.
  intros Hreach Hc Hne.
  pose proof (reachable_inv _ Hreach) as Hinv.
  destruct Hinv as [ls [cs [Hl [Hcs Hlists]]]].
  assert (Hstep : GerritReview.add_comment (VDict c) self =
                  ({| GerritReview.message := GerritReview.message self;
                      GerritReview.labels := GerritReview.labels self;
                      GerritReview.comments :=
                        VDict (setitem path
                                 (VList (stored_comments path self ++ [msg])%list) cs) |},
                   Ok tt)).
  { unfold GerritReview.add_comment, GerritReview.comment_keys,
      GerritReview.comment_msg, GerritReview.comment_item, getitem,
      stored_comments.
    rewrite !mem_keys. unfold contains.
    destruct Hc as [c r m Hf Hm Hr | c l m Hf Hm Hr Hline];
      rewrite ?Hm, ?Hr, ?Hline, ?Hf; cbn [truthy String.eqb negb andb bind
                                            GerritReview.path_key];
      rewrite Hcs, (store_comment_appends _ _ _ Hlists); reflexivity. }
  unfold GerritReview.add_comments. cbn [iter_items GerritReview.add_comments_loop].
  rewrite Hstep. cbn [fst]. unfold stored_comments. cbn [GerritReview.comments].
  rewrite Hcs. rewrite lookup_setitem_other; [reflexivity |].
  intros ->. now apply Hne.
Qed.

Lemma add_comment_other_files_witness :
  exists self,
    GerritReview.__init__ VNone VNone
      (VList [VDict [("filename", VStr "README"); ("line", VInt 1);
                     ("message", VStr "typo")]]) = Ok self /\
    stored_comments "README"
      (fst (GerritReview.add_comments
              (VList [VDict [("filename", VStr "Makefile"); ("line", VInt 3);
                             ("message", VStr "tab")]]) self))
    = [VDict [("line", VInt 1); ("message", VStr "typo")]].
Proof.
  destruct (GerritReview.__init__ VNone VNone
              (VList [VDict [("filename", VStr "README"); ("line", VInt 1);
                             ("message", VStr "typo")]]))
    as [self|e] eqn:Hinit; [| discriminate Hinit].
  exists self. split; [reflexivity |].
  rewrite (add_comment_other_files "Makefile" "README"
             [("filename", VStr "Makefile"); ("line", VInt 3); ("message", VStr "tab")]
             (VDict [("line", VInt 3); ("message", VStr "tab")]) self
             (reach_init _ _ _ _ Hinit)
             (line_comment "Makefile"
                [("filename", VStr "Makefile"); ("line", VInt 3); ("message", VStr "tab")]
                (VInt 3) (VStr "tab") eq_refl eq_refl eq_refl eq_refl)).
  - injection Hinit as <-. reflexivity.
  - discriminate.
Defined.

(** X19: [add_labels] with a mapping returns, gives every label of the
    mapping its new vote, keeps the votes of all other labels, and leaves
    message and comments alone. *)
Theorem add_labels_overrides (new_labels : dict) (self : GerritReview.t) :
  reachable self ->
  NoDup (keys new_labels) ->
  exists old now,
    GerritReview.labels self = VDict old /\
    GerritReview.add_labels (VDict new_labels) self =
      ({| GerritReview.message := GerritReview.message self;
          GerritReview.labels := VDict now;
          GerritReview.comments := GerritReview.comments self |}, Ok tt) /\
    forall label,
      lookup label now =
        match lookup label new_labels with
        | Some vote => Some vote
        | None => lookup label old
        end.
Proof.
  intros Hreach Hnd.
  destruct (reachable_inv _ Hreach) as [ls [cs [Hl _]]].
  exists ls, (update ls new_labels). split; [exact Hl |]. split.
  - unfold GerritReview.add_labels. rewrite Hl. reflexivity.
  - intros label. now apply lookup_update.
Qed.

Lemma add_labels_overrides_witness :
  exists self self',
    GerritReview.__init__ VNone
      (VDict [("Verified", VInt 1); ("Code-Review", VInt 1)]) VNone = Ok self /\
    GerritReview.add_labels (VDict [("Code-Review", VInt (-1))]) self
      = (self', Ok tt) /\
    GerritReview.labels self' =
      VDict [("Verified", VInt 1); ("Code-Review", VInt (-1))].
Proof.
  destruct (GerritReview.__init__ VNone
              (VDict [("Verified", VInt 1); ("Code-Review", VInt 1)]) VNone)
    as [self|e] eqn:Hinit; [| discriminate Hinit].
  assert (Hnd : NoDup (keys [("Code-Review", VInt (-1))])).
  { repeat constructor. simpl. tauto. }
  destruct (add_labels_overrides [("Code-Review", VInt (-1))] self
              (reach_init _ _ _ _ Hinit) Hnd) as [old [now [Hold [Hadd _]]]].
  exists self. eexists. split; [reflexivity |]. split; [exact Hadd |].
  cbn [GerritReview.labels]. injection Hinit as <-.
  unfold GerritReview.add_labels in Hadd. cbn in Hadd.
  injection Hadd as <-. reflexivity.
Defined.

(** ** More on the domain client *)

Lemma exchange_run (lib : pylib) (m : method) (u : string) (opts : dict)
  (return_response : bool) :
  (response <~ session_call lib m u opts ;;
   decoded_response <~ io_lift (_decode_response lib response) ;;
   io_ret (GerritRestAPI.finish return_response decoded_response response))
  = ([{| verb := m; target := u; options := opts |}],
     r <- session_request lib {| verb := m; target := u; options := opts |} ;;
     decoded <- _decode_response lib r ;;
     Ok (GerritRestAPI.finish return_response decoded r)).
Proof.
  rewrite <- sent_exchange with (lib := lib) (return_response := return_response).
  rewrite <- outcome_exchange. unfold sent, outcome.
  now destruct (io_bind _ _).
Qed.

Lemma query_terms_raises (items : dict) (k : string) (v : pyval) :
  In (k, v) items -> truthy v = true -> (forall s, v <> VStr s) ->
  GerritClient.query_terms items = Raise (AttributeError "replace").
Proof.
  intros Hin Hv Hns. induction items as [|[k' v'] rest IH]; [destruct Hin |].
  cbn [GerritClient.query_terms]. destruct Hin as [[= -> ->] | Hin].
  - rewrite Hv. destruct v; try reflexivity. now contradiction (Hns s).
  - specialize (IH Hin). rewrite IH.
    destruct (truthy v'); [| reflexivity]. destruct v'; reflexivity.
Qed.

(** X20: a filter whose value is true in a condition and is no string,
    such as a change number given as an integer, makes [query_changes]
    raise [AttributeError] while it builds the query: no request is
    dispatched. *)
Theorem query_changes_rejects_non_string (lib : pylib) (self : client)
  (kwargs : dict) (k : string) (v : pyval) :
  In (k, v) kwargs ->
  k <> "options" ->
  truthy v = true ->
  (forall s, v <> VStr s) ->
  GerritClient.query_changes lib self kwargs
    = ([], Raise (AttributeError "replace")).
Proof.
  intros Hin Hk Hv Hns. unfold GerritClient.query_changes.
  rewrite (query_terms_raises (delitem "options" kwargs) k v); [reflexivity | | exact Hv | exact Hns].
  unfold delitem. apply filter_In. split; [exact Hin |]. cbn [fst].
  destruct (String.eqb_spec k "options"); [contradiction | reflexivity].
Qed.

Lemma query_changes_rejects_non_string_witness :
  GerritClient.query_changes (example_lib (json_response 200 "null"))
    {| self_url := "http://review.example.com/a/"; self_kwargs := [] |}
    [("project", VStr "tools"); ("change", VInt 4711)]
  = ([], Raise (AttributeError "replace")).
Proof.
  apply (query_changes_rejects_non_string _ _ _ "change" (VInt 4711)).
  - right. left. reflexivity.
  - discriminate.
  - reflexivity.
  - discriminate.
Defined.




Lemma existsb_parameters_false (optional_args : dict) :
  existsb (fun p => contains p optional_args)
    GerritClient.create_change_parameters = false ->
  lookup "project" optional_args = None /\
  lookup "branch" optional_args = None /\
  lookup "subject" optional_args = None.
Proof.
  unfold GerritClient.create_change_parameters, contains. cbn [existsb].
  destruct (lookup "self" optional_args); [discriminate |].
  destruct (lookup "project" optional_args); [discriminate |].
  destruct (lookup "branch" optional_args); [discriminate |].
  destruct (lookup "subject" optional_args); [discriminate |].
  repeat split.
Qed.

Lemma io_bind_lift {A B : Type} (requests : list request) (m : result A)
  (f : A -> result B) :
  io_bind (requests, m) (fun a => io_lift (f a)) = (requests, bind m f).
Proof.
  destruct m as [a|e]; cbn [io_bind io_lift bind]; [| reflexivity].
  now rewrite app_nil_r.
Qed.

(** X22: [create_change] dispatches one POST to [changes/] whose JSON body
    holds the project, the branch and the subject as given and every
    optional field of the caller, with the JSON content type added to the
    default headers; the decoded answer is wrapped as a change of this
    client.  The optional fields cannot carry the names of the parameters
    of [create_change]; a call that tries raises [TypeError] and sends
    nothing. *)
Theorem create_change_posts_fields (lib : pylib) (url : string)
  (auth verify : pyval) (self : client) (project branch subject : pyval)
  (optional_args : dict) :
  GerritRestAPI.__init__ url auth verify = Ok self ->
  NoDup (keys optional_args) ->
  (existsb (fun p => contains p optional_args)
     GerritClient.create_change_parameters = true ->
   GerritClient.create_change lib self project branch subject optional_args
     = ([], Raise (TypeError "got multiple values for argument"))) /\
  (existsb (fun p => contains p optional_args)
     GerritClient.create_change_parameters = false ->
   exists rq body,
     sent (GerritClient.create_change lib self project branch subject optional_args)
       = [rq] /\
     verb rq = POST /\
     target rq = self_url self ++ "changes/" /\
     lookup "json" (options rq) = Some (VDict body) /\
     lookup "project" body = Some project /\
     lookup "branch" body = Some branch /\
     lookup "subject" body = Some subject /\
     (forall k v, lookup k optional_args = Some v -> lookup k body = Some v) /\
     lookup "headers" (options rq) =
       Some (VDict [("Content-Type", VStr "application/json;charset=UTF-8");
                    ("Accept", VStr "application/json");
                    ("Accept-Encoding", VStr "gzip")]) /\
     (forall resp v,
        session_request lib rq = Ok resp ->
        _decode_response lib resp = Ok v ->
        outcome (GerritClient.create_change lib self project branch subject
                   optional_args)
          = GerritChange.__init__ self v)).
Proof.
  intros Hinit Hnd. unfold GerritClient.create_change. split.
  - intros ->. reflexivity.
  - intros Hfree. rewrite Hfree. cbv zeta.
    destruct (existsb_parameters_false _ Hfree) as [Hp [Hb Hs]].
    apply init_kwargs in Hinit.
    unfold GerritRestAPI.post. rewrite exchange_run, io_bind_lift.
    set (body := update [("project", project); ("branch", branch);
                         ("subject", subject)] optional_args).
    cbn [lookup String.eqb Ascii.eqb Bool.eqb contains orb].
    fold (write_options true self [("json", VDict body)]).
    eexists. exists body. cbn [sent outcome fst snd verb target options].
    split; [reflexivity |]. split; [reflexivity |]. split; [reflexivity |].
    assert (Hndj : NoDup (keys [("json", VDict body)])).
    { repeat constructor. simpl. tauto. }
    split.
    { cbn [options]. unfold write_options. cbv zeta.
      rewrite (merge_dict_lookup _ _ _ Hndj), Hinit. reflexivity. }
    split; [unfold body; now rewrite (lookup_update _ _ _ Hnd), Hp |].
    split; [unfold body; now rewrite (lookup_update _ _ _ Hnd), Hb |].
    split; [unfold body; now rewrite (lookup_update _ _ _ Hnd), Hs |].
    split.
    { intros k v Hk. unfold body. now rewrite (lookup_update _ _ _ Hnd), Hk. }
    split.
    { cbn [options].
      rewrite (fresh_write_headers true self auth verify _ Hinit Hndj). reflexivity. }
    intros resp v Hresp Hdec. rewrite Hresp. cbn [bind]. rewrite Hdec.
    reflexivity.
Qed.

Lemma create_change_posts_fields_witness :
  exists self rq body,
    GerritClient.__init__ "http://review.example.com" "bob" "secret" = Ok self /\
    sent (GerritClient.create_change changes_lib self
            (VStr "tools") (VStr "master") (VStr "Fix the build")
            [("topic", VStr "ci")]) = [rq] /\
    target rq = "http://review.example.com/a/changes/" /\
    lookup "json" (options rq) = Some (VDict body) /\
    body = [("project", VStr "tools"); ("branch", VStr "master");
            ("subject", VStr "Fix the build"); ("topic", VStr "ci")].
Proof.
  destruct (GerritClient.__init__ "http://review.example.com" "bob" "secret")
    as [self|e] eqn:Hinit; [| discriminate Hinit].
  assert (Hnd : NoDup (keys [("topic", VStr "ci")])).
  { repeat constructor. simpl. tauto. }
  destruct (create_change_posts_fields changes_lib "http://review.example.com"
              (VAuth "bob:secret") (VBool true) self
              (VStr "tools") (VStr "master") (VStr "Fix the build")
              [("topic", VStr "ci")] Hinit Hnd) as [_ Hpost].
  destruct (Hpost eq_refl) as [rq [body [Hsent [_ [Htarget [Hjson _]]]]]].
  exists self, rq, body. split; [reflexivity |]. split; [exact Hsent |].
  injection Hinit as <-. repeat split; try assumption.
  cbn in Hsent. injection Hsent as <-. cbn in Hjson. now injection Hjson as <-.
Defined.


(** ** Changes *)

Lemma io_bind_ret {A B : Type} (a : A) (f : A -> io B) :
  io_bind (io_lift (Ok a)) f = f a.
Proof. unfold io_bind, io_lift. now destruct (f a). Qed.

Lemma change_id_missing (repr : pyval -> string) (self : GerritChange.t) :
  lookup "_number" (GerritChange.attrs self) = None ->
  GerritChangeMethods.id repr self = Raise (KeyError "_number").
Proof.
  intros H. unfold GerritChangeMethods.id, GerritChangeMethods.attr, getitem.
  now rewrite H.
Qed.

Lemma change_id_found (repr : pyval -> string) (self : GerritChange.t)
  (number : pyval) :
  lookup "_number" (GerritChange.attrs self) = Some number ->
  GerritChangeMethods.id repr self = Ok (py_str repr number).
Proof.
  intros H. unfold GerritChangeMethods.id, GerritChangeMethods.attr, getitem.
  now rewrite H.
Qed.

(** X24: on a change whose JSON had no [_number], every operation raises
    [KeyError] for [_number] while it builds its endpoint, and dispatches
    nothing. *)
Theorem change_without_number (lib : pylib) (repr : pyval -> string)
  (self : GerritChange.t) (topic reviewer : pyval) (filename : string)
  (kwargs : dict) :
  lookup "_number" (GerritChange.attrs self) = None ->
  let failed := ([], Raise (KeyError "_number")) in
  GerritChangeMethods.rebase lib repr self = failed /\
  GerritChangeMethods.abandon lib repr self = failed /\
  GerritChangeMethods.get_topic lib repr self = failed /\
  GerritChangeMethods.set_topic lib repr topic self = failed /\
  GerritChangeMethods.delete_topic lib repr self = failed /\
  GerritChangeMethods.submit lib repr self = failed /\
  GerritChangeMethods.get_file_content lib repr filename self = failed /\
  GerritChangeMethods.publish_edit lib repr self = failed /\
  GerritChangeMethods.delete_edit lib repr self = failed /\
  GerritChangeMethods.publish lib repr self = failed /\
  GerritChangeMethods.add_reviewer lib repr reviewer self = failed /\
  GerritChangeMethods.reload lib repr self = ([], Raise (KeyError "_number")) /\
  GerritChangeMethods.add_review lib repr kwargs self
    = ([], Raise (KeyError "_number")).
Proof.
  intros H. cbv zeta.
  unfold GerritChangeMethods.rebase, GerritChangeMethods.abandon,
    GerritChangeMethods.get_topic, GerritChangeMethods.set_topic,
    GerritChangeMethods.delete_topic, GerritChangeMethods.submit,
    GerritChangeMethods.get_file_content, GerritChangeMethods.publish_edit,
    GerritChangeMethods.delete_edit, GerritChangeMethods.publish,
    GerritChangeMethods.add_reviewer, GerritChangeMethods.add_review,
    GerritChangeMethods.reload.
  rewrite (change_id_missing repr self H). repeat split.
Qed.

Lemma change_without_number_witness :
  let self := {| GerritChange.gerrit :=
                   {| self_url := "http://review.example.com/"; self_kwargs := [] |};
                 GerritChange.attrs := [("change_id", VStr "I42")] |} in
  GerritChangeMethods.submit (example_lib (json_response 200 "null"))
    (fun _ => "") self
  = ([], Raise (KeyError "_number")).
Proof.
  cbv zeta.
  exact (proj1 (proj2 (proj2 (proj2 (proj2 (proj2
    (change_without_number (example_lib (json_response 200 "null")) (fun _ => "")
       {| GerritChange.gerrit :=
            {| self_url := "http://review.example.com/"; self_kwargs := [] |};
          GerritChange.attrs := [("change_id", VStr "I42")] |}
       VNone VNone "" [] eq_refl))))))).
Defined.

(** X25: the operations of a change that carry no body dispatch exactly
    one request each, to [changes/<number>/<operation>] under the base URL
    of the client, with the verb of the operation and, on a client as
    constructed, the default options and nothing else: no content type is
    added. *)
Theorem change_plain_operations (lib : pylib) (repr : pyval -> string)
  (url : string) (auth verify : pyval) (gerrit : client) (attrs : dict)
  (number : pyval) :
  GerritRestAPI.__init__ url auth verify = Ok gerrit ->
  lookup "_number" attrs = Some number ->
  let self := {| GerritChange.gerrit := gerrit; GerritChange.attrs := attrs |} in
  let one (m : method) (operation : string) (call : io returned) :=
    sent call =
      [{| verb := m;
          target := self_url gerrit ++ "changes/" ++ py_str repr number ++ operation;
          options := [("auth", auth); ("verify", verify);
                      ("headers", VDict [("Accept", VStr "application/json");
                                         ("Accept-Encoding", VStr "gzip")])] |}] in
  one POST "/rebase" (GerritChangeMethods.rebase lib repr self) /\
  one POST "/abandon" (GerritChangeMethods.abandon lib repr self) /\
  one POST "/submit" (GerritChangeMethods.submit lib repr self) /\
  one POST "/publish" (GerritChangeMethods.publish lib repr self) /\
  one POST "/edit:publish" (GerritChangeMethods.publish_edit lib repr self) /\
  one GET "/topic" (GerritChangeMethods.get_topic lib repr self) /\
  one DELETE "/topic" (GerritChangeMethods.delete_topic lib repr self) /\
  one DELETE "/edit" (GerritChangeMethods.delete_edit lib repr self).
Proof.
  intros Hinit Hnum. cbv zeta. apply init_kwargs in Hinit.
  unfold GerritChangeMethods.rebase, GerritChangeMethods.abandon,
    GerritChangeMethods.get_topic, GerritChangeMethods.delete_topic,
    GerritChangeMethods.submit, GerritChangeMethods.publish_edit,
    GerritChangeMethods.delete_edit, GerritChangeMethods.publish.
  rewrite (change_id_found repr
             {| GerritChange.gerrit := gerrit; GerritChange.attrs := attrs |}
             number Hnum).
  rewrite !io_bind_ret.
  cbn [GerritChange.gerrit].
  rewrite get_sent, !post_sent, !delete_sent.
  unfold write_options. cbn [lookup contains orb]. rewrite Hinit.
  repeat split.
Qed.

Lemma change_plain_operations_witness :
  exists gerrit,
    GerritClient.__init__ "http://review.example.com" "bob" "secret" = Ok gerrit /\
    sent (GerritChangeMethods.rebase (example_lib (json_response 200 "null"))
            (fun _ => "")
            {| GerritChange.gerrit := gerrit;
               GerritChange.attrs := [("_number", VInt 4711)] |})
    = [{| verb := POST;
          target := "http://review.example.com/a/changes/4711/rebase";
          options := [("auth", VAuth "bob:secret"); ("verify", VBool true);
                      ("headers", VDict [("Accept", VStr "application/json");
                                         ("Accept-Encoding", VStr "gzip")])] |}].
Proof.
  destruct (GerritClient.__init__ "http://review.example.com" "bob" "secret")
    as [gerrit|e] eqn:Hinit; [| discriminate Hinit].
  exists gerrit. split; [reflexivity |].
  rewrite (proj1 (change_plain_operations
                    (example_lib (json_response 200 "null")) (fun _ => "")
                    "http://review.example.com" (VAuth "bob:secret") (VBool true)
                    gerrit [("_number", VInt 4711)] (VInt 4711) Hinit eq_refl)).
  injection Hinit as <-. reflexivity.
Defined.

(** X26: [set_topic] and [add_reviewer] dispatch one PUT and one POST to
    the topic and reviewers endpoints of the change, with the topic and
    the reviewer as the JSON body and, on a client as constructed, the
    JSON content type added to the default headers. *)
Theorem change_json_operations (lib : pylib) (repr : pyval -> string)
  (url : string) (auth verify : pyval) (gerrit : client) (attrs : dict)
  (number topic reviewer : pyval) :
  GerritRestAPI.__init__ url auth verify = Ok gerrit ->
  lookup "_number" attrs = Some number ->
  let self := {| GerritChange.gerrit := gerrit; GerritChange.attrs := attrs |} in
  let one (m : method) (operation : string) (body : dict) (call : io returned) :=
    sent call =
      [{| verb := m;
          target := self_url gerrit ++ "changes/" ++ py_str repr number ++ operation;
          options :=
            [("headers", VDict [("Content-Type",
                                 VStr "application/json;charset=UTF-8");
                                ("Accept", VStr "application/json");
                                ("Accept-Encoding", VStr "gzip")]);
             ("auth", auth); ("verify", verify); ("json", VDict body)] |}] in
  one PUT "/topic" [("topic", topic)]
    (GerritChangeMethods.set_topic lib repr topic self) /\
  one POST "/reviewers" [("reviewer", reviewer)]
    (GerritChangeMethods.add_reviewer lib repr reviewer self).
Proof.
  intros Hinit Hnum. cbv zeta. apply init_kwargs in Hinit.
  unfold GerritChangeMethods.set_topic, GerritChangeMethods.add_reviewer.
  rewrite (change_id_found repr
             {| GerritChange.gerrit := gerrit; GerritChange.attrs := attrs |}
             number Hnum).
  rewrite !io_bind_ret.
  cbn [GerritChange.gerrit].
  rewrite put_sent, post_sent.
  unfold write_options. cbn [lookup contains orb String.eqb Ascii.eqb Bool.eqb].
  rewrite Hinit. split; reflexivity.
Qed.

Lemma change_json_operations_witness :
  exists gerrit,
    GerritClient.__init__ "http://review.example.com" "bob" "secret" = Ok gerrit /\
    sent (GerritChangeMethods.set_topic (example_lib (json_response 200 "null"))
            (fun _ => "") (VStr "ci")
            {| GerritChange.gerrit := gerrit;
               GerritChange.attrs := [("_number", VInt 4711)] |})
    = [{| verb := PUT;
          target := "http://review.example.com/a/changes/4711/topic";
          options :=
            [("headers", VDict [("Content-Type",
                                 VStr "application/json;charset=UTF-8");
                                ("Accept", VStr "application/json");
                                ("Accept-Encoding", VStr "gzip")]);
             ("auth", VAuth "bob:secret"); ("verify", VBool true);
             ("json", VDict [("topic", VStr "ci")])] |}].
Proof.
  destruct (GerritClient.__init__ "http://review.example.com" "bob" "secret")
    as [gerrit|e] eqn:Hinit; [| discriminate Hinit].
  exists gerrit. split; [reflexivity |].
  rewrite (proj1 (change_json_operations
                    (example_lib (json_response 200 "null")) (fun _ => "")
                    "http://review.example.com" (VAuth "bob:secret") (VBool true)
                    gerrit [("_number", VInt 4711)] (VInt 4711) (VStr "ci") VNone
                    Hinit eq_refl)).
  injection Hinit as <-. reflexivity.
Defined.





(** X29: the revision of a change is its [current_revision] attribute and
    its files are found under that revision in [revisions].  A change
    fetched without revision detail has neither: [revision] and [files]
    raise [KeyError], and [get_file_content] raises it before it
    dispatches anything. *)
Theorem change_revision_detail (lib : pylib) (repr : pyval -> string)
  (self : GerritChange.t) (filename : string) :
  (forall rev revisions detail files,
     lookup "current_revision" (GerritChange.attrs self) = Some (VStr rev) ->
     lookup "revisions" (GerritChange.attrs self) = Some (VDict revisions) ->
     lookup rev revisions = Some (VDict detail) ->
     lookup "files" detail = Some files ->
     GerritChangeMethods.revision self = Ok (VStr rev) /\
     GerritChangeMethods.files repr self = Ok files) /\
  (lookup "current_revision" (GerritChange.attrs self) = None ->
   GerritChangeMethods.revision self = Raise (KeyError "current_revision") /\
   (exists key, GerritChangeMethods.files repr self = Raise (KeyError key)) /\
   (forall number,
      lookup "_number" (GerritChange.attrs self) = Some number ->
      GerritChangeMethods.get_file_content lib repr filename self
        = ([], Raise (KeyError "current_revision")))).
Proof.
  unfold GerritChangeMethods.files, GerritChangeMethods.revision,
    GerritChangeMethods.attr, getitem. split.
  - intros rev revisions detail files Hrev Hrevs Hdet Hfiles.
    rewrite Hrev, Hrevs. cbn [bind subscript]. unfold getitem.
    rewrite Hdet. cbn [bind subscript]. unfold getitem. now rewrite Hfiles.
  - intros Hnone. rewrite Hnone. split; [reflexivity |]. split.
    + destruct (lookup "revisions" (GerritChange.attrs self));
        eexists; reflexivity.
    + intros number Hnum. unfold GerritChangeMethods.get_file_content.
      rewrite (change_id_found repr self number Hnum), io_bind_ret.
      unfold GerritChangeMethods.revision, GerritChangeMethods.attr, getitem.
      now rewrite Hnone.
Qed.

Lemma decimal_injective (n1 n2 : Z) :
  NilZero.string_of_int (Z.to_int n1) = NilZero.string_of_int (Z.to_int n2) ->
  n1 = n2.
Proof.
  intros H.
  assert (Hparse : forall n,
             NilZero.int_of_string (NilZero.string_of_int (Z.to_int n))
             = Some (Z.to_int n)).
  { intros n. apply NilZero.isi; destruct n; cbn; try discriminate;
      intros [= Hnil]; exact (DecimalPos.Unsigned.to_uint_nonnil _ Hnil). }
  pose proof (Hparse n1) as H1. rewrite H, Hparse in H1.
  injection H1 as H1.
  rewrite <- (DecimalZ.of_to n1), <- (DecimalZ.of_to n2). now rewrite H1.
Qed.

(** X30: the identifier of a change is the decimal text of its number, so
    two changes with the same identifier have the same number: changes
    with different numbers never share an endpoint identifier. *)
Theorem change_id_distinguishes (repr : pyval -> string)
  (self1 self2 : GerritChange.t) (n1 n2 : Z) :
  lookup "_number" (GerritChange.attrs self1) = Some (VInt n1) ->
  lookup "_number" (GerritChange.attrs self2) = Some (VInt n2) ->
  GerritChangeMethods.id repr self1 = GerritChangeMethods.id repr self2 ->
  n1 = n2.
Proof.
  intros H1 H2.
  rewrite (change_id_found repr self1 _ H1), (change_id_found repr self2 _ H2).
  cbn [py_str]. intros [= H]. now apply decimal_injective.
Qed.

Lemma change_id_distinguishes_witness :
  let gerrit := {| self_url := "http://review.example.com/"; self_kwargs := [] |} in
  GerritChangeMethods.id (fun _ => "")
    {| GerritChange.gerrit := gerrit; GerritChange.attrs := [("_number", VInt 42)] |}
  = Ok "42" /\ 42 = 42.
Proof.
  cbv zeta. split; [reflexivity |].
  apply (change_id_distinguishes (fun _ => "")
           {| GerritChange.gerrit :=
                {| self_url := "http://review.example.com/"; self_kwargs := [] |};
              GerritChange.attrs := [("_number", VInt 42)] |}
           {| GerritChange.gerrit :=
                {| self_url := "http://review.example.org/"; self_kwargs := [] |};
              GerritChange.attrs := [("status", VStr "NEW"); ("_number", VInt 42)] |}
           42 42); reflexivity.
Defined.
